(** * tools/mkwallpaper/raw_convert.py: PNG/JPEG to XRGB8888 raw

    A shallow embedding of the converter script and the properties of the
    file it writes.  The script decodes an image with Pillow, optionally
    resizes it, and writes every pixel as a little-endian 32-bit word
    [0x00RRGGBB], row by row.

    Layout of the development:
    - [Struct]: [struct.pack("<I", v)] and its inverse on byte lists;
    - [Py]: exceptions, the process state and the monad the script runs in;
    - [PIL]: the image type and the interface of the imaging library;
    - [Builtins]: truth values, and [int(str)] as the interpreter gives it;
    - section [Script]: [convert], the module body and the interpreter's
      exit status;
    - [Tiny] and [Decimal]: a small concrete imaging library and a reader
      of ASCII numbers, stand-ins used to run the script;
    - the theorems. *)

From Stdlib Require Import ZArith Strings.Byte Strings.Ascii Lia.
From stdpp Require Import gmap strings list pretty.

(** ** struct *)

Module Struct.
Local Open Scope Z_scope.

(** One element of a [bytes] object: the low eight bits of an int. *)
Definition octet (v : Z) : byte :=
  match Byte.of_N (Z.to_N (Z.land v 255)) with
  | Some b => b
  | None => x00
  end.

(** [b] as an int, as indexing a [bytes] object gives it. *)
Definition ord (b : byte) : Z := Z.of_N (Byte.to_N b).

(** [struct.pack("<I", v)]: four bytes, least significant first;
    [None] stands for [struct.error], raised unless [0 <= v < 2**32]. *)
Definition pack_I (v : Z) : option (list byte) :=
  if (0 <=? v) && (v <=? 4294967295) then
    Some [octet v; octet (Z.shiftr v 8); octet (Z.shiftr v 16);
          octet (Z.shiftr v 24)]
  else None.

(** [struct.unpack("<I", bs)[0]]; [None] unless [bs] has four bytes. *)
Definition unpack_I (bs : list byte) : option Z :=
  match bs with
  | [b0; b1; b2; b3] =>
      Some (Z.lor (ord b0)
             (Z.lor (Z.shiftl (ord b1) 8)
                (Z.lor (Z.shiftl (ord b2) 16) (Z.shiftl (ord b3) 24))))
  | _ => None
  end.
End Struct.

(** ** The process: exceptions, state, monad *)

Module Py.

Inductive exn : Type :=
| SystemExit (status : Z)
| ImportError
| IndexError
| TypeError
| ValueError
| FileNotFoundError
| UnidentifiedImageError
| OSError
| StructError.

(** Calls that leave the script: into Pillow and into the file system. *)
Inductive call : Type :=
| CallImageOpen (path : string)
| CallResize (w h : Z)
| CallOpenWb (path : string).

(** What a run can see and change.  [sys_argv] and [pillow] (is the
    package importable) are fixed at start; [writable p] tells whether
    [open(p, "wb")] succeeds; [calls] records the outside calls, oldest
    first. *)
Record world : Type := World {
  sys_argv : list string;
  pillow : bool;
  files : gmap string (list byte);
  writable : string → bool;
  stdout : list string;
  stderr : list string;
  calls : list call
}.

Definition with_files (fs : gmap string (list byte)) (σ : world) : world :=
  World (sys_argv σ) (pillow σ) fs (writable σ) (stdout σ) (stderr σ) (calls σ).
Definition with_stdout (out : list string) (σ : world) : world :=
  World (sys_argv σ) (pillow σ) (files σ) (writable σ) out (stderr σ) (calls σ).
Definition with_stderr (err : list string) (σ : world) : world :=
  World (sys_argv σ) (pillow σ) (files σ) (writable σ) (stdout σ) err (calls σ).
Definition with_calls (cs : list call) (σ : world) : world :=
  World (sys_argv σ) (pillow σ) (files σ) (writable σ) (stdout σ) (stderr σ) cs.

Definition logged (c : call) (σ : world) : world :=
  with_calls (calls σ ++ [c]) σ.

Inductive result (A : Type) : Type :=
| Normal (a : A)
| Raise (e : exn).
Arguments Normal {A} a.
Arguments Raise {A} e.

(** A statement or expression: it runs in a state and either yields a
    value or raises, leaving a state behind in both cases. *)
Definition M (A : Type) : Type := world → result A * world.

Definition ret {A} (a : A) : M A := λ σ, (Normal a, σ).
Definition raise {A} (e : exn) : M A := λ σ, (Raise e, σ).
Definition bind {A B} (c : M A) (k : A → M B) : M B :=
  λ σ, match c σ with
       | (Normal a, σ') => k a σ'
       | (Raise e, σ') => (Raise e, σ')
       end.

(** [try: c except e: handler] for one exception class. *)
Definition try_except {A} (c : M A) (catches : exn → bool) (handler : M A) : M A :=
  λ σ, match c σ with
       | (Raise e, σ') => if catches e then handler σ' else (Raise e, σ')
       | r => r
       end.

(** [for a in l: body(a)] *)
Fixpoint for_ {A} (l : list A) (body : A → M unit) : M unit :=
  match l with
  | [] => ret tt
  | a :: l' => bind (body a) (λ _, for_ l' body)
  end.

(** [range(n)] for a non-negative [n]. *)
Definition range (n : nat) : list nat := seq 0 n.

(** [l[i]] *)
Definition index {A} (l : list A) (i : nat) : M A :=
  match l !! i with
  | Some a => ret a
  | None => raise IndexError
  end.

(** [print(s)] and [print(s, file=sys.stderr)]: one line each.  The
    streams are taken to accept every line; a stream that cannot encode
    or take a line is outside this model. *)
Definition print (s : string) : M unit :=
  λ σ, (Normal tt, with_stdout (stdout σ ++ [s]) σ).
Definition print_stderr (s : string) : M unit :=
  λ σ, (Normal tt, with_stderr (stderr σ ++ [s]) σ).

(** [sys.exit(n)] *)
Definition sys_exit {A} (n : Z) : M A := raise (SystemExit n).

(** [open(path, "wb")]: the file is created or truncated; the handle is
    the path it writes to.  Files are told apart by their path string:
    two spellings of one file are two keys here. *)
Definition open_wb (path : string) : M string :=
  λ σ, let σ := logged (CallOpenWb path) σ in
       if writable σ path
       then (Normal path, with_files (<[path := []]> (files σ)) σ)
       else (Raise OSError, σ).

(** [f.write(bs)]: the bytes go to the end of the file. *)
Definition write (f : string) (bs : list byte) : M unit :=
  λ σ, (Normal tt,
        with_files (<[f := default [] (files σ !! f) ++ bs]> (files σ)) σ).

(** [struct.pack("<I", v)] as an expression. *)
Definition struct_pack_I (v : Z) : M (list byte) :=
  match Struct.pack_I v with
  | Some bs => ret bs
  | None => raise StructError
  end.

End Py.

Notation "'let!' x := c 'in' k" := (Py.bind c (λ x, k))
  (at level 10, x name, c at level 100, k at level 200, only parsing).
Notation "'run!' c 'in' k" := (Py.bind c (λ _, k))
  (at level 10, c at level 100, k at level 200, only parsing).

(** ** Pillow *)

Module PIL.

(** A pixel of an image in mode RGB, as [pixels[x, y]] returns it. *)
Definition rgb : Type := Z * Z * Z.

(** Every band of a mode-RGB pixel is one byte. *)
Definition rgb_ok (p : rgb) : Prop :=
  let '(r, g, b) := p in
  (0 ≤ r ≤ 255 ∧ 0 ≤ g ≤ 255 ∧ 0 ≤ b ≤ 255)%Z.

(** A decoded image: [img.size] is (width, height), [img.load()] gives
    the pixel access object, read as [pixels[x, y]]. *)
Record Image : Type := {
  size : nat * nat;
  load : nat → nat → rgb
}.

Definition width (img : Image) : nat := fst (size img).
Definition height (img : Image) : nat := snd (size img).

Definition mode_RGB (img : Image) : Prop :=
  ∀ x y, x < width img → y < height img → rgb_ok (load img x y).

(** The part of Pillow the script calls.  [open_RGB data] is
    [Image.open(path).convert("RGB")] on a file holding [data], [None]
    when Pillow cannot read it; [resize img w h] is
    [img.resize((w, h), Image.LANCZOS)], [None] when it raises.  The
    laws are Pillow's: mode RGB has one byte per band, and a resized
    image has the size that was asked for. *)
Class Library : Type := {
  open_RGB : list byte → option Image;
  resize : Image → Z → Z → option Image;
  open_RGB_mode : ∀ data img, open_RGB data = Some img → mode_RGB img;
  resize_size : ∀ img w h img',
    resize img w h = Some img' →
    Z.of_nat (width img') = w ∧ Z.of_nat (height img') = h;
  resize_mode : ∀ img w h img',
    mode_RGB img → resize img w h = Some img' → mode_RGB img'
}.

End PIL.

(** ** Builtins *)

Module Builtins.

(** Truth value of an optional int: [None] and [0] are false. *)
Definition truthy (v : option Z) : bool :=
  match v with
  | Some n => negb (n =? 0)%Z
  | None => false
  end.

(** [int(s)] on a command-line string.  The builtin is the interpreter's,
    not the script's: which strings it reads as a number (digits of any
    script, white space around them, underscores, a limit on the number
    of digits) is left to it.  [None] stands for [ValueError]. *)
Class Python : Type := {
  int : string → option Z
}.

End Builtins.

(** ** The script *)

Section Script.
Context `{PIL.Library} `{Builtins.Python}.
Import Py.

(** [Image.open(path).convert("RGB")]: the file is read and decoded in
    full here, before anything is written. *)
Definition Image_open_convert_RGB (path : string) : M PIL.Image :=
  λ σ, let σ := logged (CallImageOpen path) σ in
       match files σ !! path with
       | None => (Raise FileNotFoundError, σ)
       | Some data =>
           match PIL.open_RGB data with
           | Some img => (Normal img, σ)
           | None => (Raise UnidentifiedImageError, σ)
           end
       end.

(** [img.resize((width, height), Image.LANCZOS)] *)
Definition Image_resize (img : PIL.Image) (size : option Z * option Z)
  : M PIL.Image :=
  match size with
  | (Some w, Some h) =>
      λ σ, let σ := logged (CallResize w h) σ in
           match PIL.resize img w h with
           | Some img' => (Normal img', σ)
           | None => (Raise ValueError, σ)
           end
  | _ => raise TypeError
  end.

Definition done_message (w h : nat) (outpath : string) : string :=
  "변환 완료: " +:+ pretty w +:+ "x" +:+ pretty h +:+ " → " +:+ outpath
    +:+ " (" +:+ pretty (w * h * 4) +:+ " bytes)".

(** [def convert(inpath, outpath, width=None, height=None)] *)
Definition convert (inpath outpath : string) (width height : option Z)
  : M unit :=
  let! img := Image_open_convert_RGB inpath in
  let! img :=
    (if Builtins.truthy width && Builtins.truthy height
     then Image_resize img (width, height)
     else ret img) in
  let '(w, h) := PIL.size img in
  let pixels := PIL.load img in
  let! f := open_wb outpath in
  run! for_ (range h) (λ y,
         for_ (range w) (λ x,
           let '(r, g, b) := pixels x y in
           let! word :=
             struct_pack_I (Z.lor (Z.lor (Z.shiftl r 16) (Z.shiftl g 8)) b) in
           write f word)) in
  print (done_message w h outpath).

Definition usage_message (prog : string) : string :=
  "사용법: " +:+ prog +:+ " input.png output.raw [width height]".

Definition pillow_message : string :=
  "ERROR: Pillow 필요 — pip install Pillow".

(** [from PIL import Image] *)
Definition import_PIL : M unit :=
  λ σ, if pillow σ then (Normal tt, σ) else (Raise ImportError, σ).

Definition is_ImportError (e : exn) : bool :=
  match e with
  | ImportError => true
  | _ => false
  end.

(** [int(s)] as an expression. *)
Definition int_ (s : string) : M Z :=
  match Builtins.int s with
  | Some n => ret n
  | None => raise ValueError
  end.

(** The block under [if __name__ == "__main__":]. *)
Definition main : M unit :=
  λ σ,
    let argv := sys_argv σ in
    (run! (if length argv <? 3
           then let! prog := index argv 0 in
                run! print (usage_message prog) in
                sys_exit 1
           else ret tt) in
     let! w := (if 4 <? length argv
                then let! s := index argv 3 in
                     let! n := int_ s in
                     ret (Some n)
                else ret None) in
     let! h := (if 4 <? length argv
                then let! s := index argv 4 in
                     let! n := int_ s in
                     ret (Some n)
                else ret None) in
     let! inpath := index argv 1 in
     let! outpath := index argv 2 in
     convert inpath outpath w h) σ.

(** The module body, run as a script: the guarded import, then [main]. *)
Definition raw_convert_py : M unit :=
  run! try_except import_PIL is_ImportError
         (run! print_stderr pillow_message in sys_exit 1) in
  main.

Definition exn_name (e : exn) : string :=
  match e with
  | SystemExit _ => "SystemExit"
  | ImportError => "ImportError"
  | IndexError => "IndexError"
  | TypeError => "TypeError"
  | ValueError => "ValueError"
  | FileNotFoundError => "FileNotFoundError"
  | UnidentifiedImageError => "PIL.UnidentifiedImageError"
  | OSError => "OSError"
  | StructError => "struct.error"
  end.

(** [python3 raw_convert.py ...]: the exit status and the final state.
    [SystemExit] gives its status silently; any other exception that
    reaches the top is reported on standard error with status 1.  This
    is the status the script's own control flow gives; the flush of the
    standard streams at shutdown is not part of it. *)
Definition python3 (σ : world) : Z * world :=
  match raw_convert_py σ with
  | (Normal _, σ') => (0%Z, σ')
  | (Raise (SystemExit n), σ') => (n, σ')
  | (Raise e, σ') =>
      (1%Z, with_stderr
              (stderr σ' ++ ["Traceback (most recent call last): " +:+ exn_name e])
              σ')
  end.

End Script.

(** ** A concrete imaging library

    A stand-in for Pillow that the script can be run against: files hold
    one byte of width, one byte of height, then three bytes per pixel in
    row-major order; resizing picks the nearest source pixel. *)

Module Tiny.
Import PIL.

Definition pixel_at (w : nat) (body : list byte) (x y : nat) : rgb :=
  let i := 3 * (y * w + x) in
  (Struct.ord (nth i body x00),
   Struct.ord (nth (i + 1) body x00),
   Struct.ord (nth (i + 2) body x00)).

Definition open_RGB (data : list byte) : option Image :=
  match data with
  | bw :: bh :: body =>
      let w := N.to_nat (Byte.to_N bw) in
      let h := N.to_nat (Byte.to_N bh) in
      if length body =? 3 * (w * h)
      then Some {| size := (w, h); load := pixel_at w body |}
      else None
  | _ => None
  end.

Definition resize (img : Image) (w h : Z) : option Image :=
  if (0 <? w)%Z && (0 <? h)%Z && (0 <? width img) && (0 <? height img)
  then Some {| size := (Z.to_nat w, Z.to_nat h);
               load := λ x y, load img (x * width img / Z.to_nat w)
                                       (y * height img / Z.to_nat h) |}
  else None.

End Tiny.

(** ** A concrete reader of numbers

    A stand-in for the builtin [int], enough to run the script on plain
    ASCII arguments: white space around, one sign, then digits with
    single underscores between them.  It is not the interpreter's [int],
    which reads more; no theorem about the script depends on it. *)

Module Decimal.

Definition is_space (c : ascii) : bool :=
  let n := nat_of_ascii c in
  ((9 <=? n) && (n <=? 13)) || (n =? 32).

Definition digit (c : ascii) : option Z :=
  let n := nat_of_ascii c in
  if (48 <=? n) && (n <=? 57) then Some (Z.of_nat (n - 48)) else None.

Fixpoint lstrip (l : list ascii) : list ascii :=
  match l with
  | c :: l' => if is_space c then lstrip l' else l
  | [] => []
  end.

Definition strip (l : list ascii) : list ascii :=
  rev (lstrip (rev (lstrip l))).

(** Digits with single underscores between them; [after_digit] tells
    whether the character just read was a digit. *)
Fixpoint digits (acc : Z) (after_digit : bool) (l : list ascii) : option Z :=
  match l with
  | [] => if after_digit then Some acc else None
  | c :: l' =>
      match digit c with
      | Some d => digits (10 * acc + d)%Z true l'
      | None =>
          if (Ascii.eqb c "_" && after_digit)%bool
          then digits acc false l'
          else None
      end
  end.

Definition read (s : string) : option Z :=
  match strip (String.list_ascii_of_string s) with
  | c :: l =>
      if Ascii.eqb c "+" then digits 0 false l
      else if Ascii.eqb c "-" then Z.opp <$> digits 0 false l
      else digits 0 false (c :: l)
  | [] => None
  end.

End Decimal.

Definition ascii_numbers : Builtins.Python := {| Builtins.int := Decimal.read |}.


(** ** Bytes and words *)

Lemma ord_range (b : byte) : (0 ≤ Struct.ord b ≤ 255)%Z.
Proof.
  unfold Struct.ord. pose proof (Byte.to_N_bounded b). lia.
Qed.

Lemma ord_octet (v : Z) : (0 ≤ v ≤ 255)%Z → Struct.ord (Struct.octet v) = v.
Proof.
  intros Hv. unfold Struct.ord, Struct.octet.
  assert (Hland : Z.land v 255 = v).
  { change 255%Z with (Z.ones 8). rewrite Z.land_ones by lia.
    apply Z.mod_small. change (2 ^ 8)%Z with 256%Z. lia. }
  rewrite Hland.
  destruct (Byte.of_N (Z.to_N v)) as [b|] eqn:Hb.
  - apply Byte.to_of_N in Hb. rewrite Hb. lia.
  - apply Byte.of_N_None_iff in Hb. lia.
Qed.

Lemma octet_ord (b : byte) : Struct.octet (Struct.ord b) = b.
Proof.
  unfold Struct.octet, Struct.ord.
  pose proof (Byte.to_N_bounded b) as Hb.
  assert (Hland : Z.land (Z.of_N (Byte.to_N b)) 255 = Z.of_N (Byte.to_N b)).
  { change 255%Z with (Z.ones 8). rewrite Z.land_ones by lia.
    apply Z.mod_small. change (2 ^ 8)%Z with 256%Z. lia. }
  rewrite Hland, N2Z.id, Byte.of_to_N. reflexivity.
Qed.

(** ** The concrete library obeys Pillow's laws *)

Lemma tiny_pixel_ok w body x y : PIL.rgb_ok (Tiny.pixel_at w body x y).
Proof.
  unfold Tiny.pixel_at, PIL.rgb_ok. repeat split; apply ord_range.
Qed.

Lemma tiny_open_mode data img : Tiny.open_RGB data = Some img → PIL.mode_RGB img.
Proof.
  unfold Tiny.open_RGB. destruct data as [|bw [|bh body]]; try discriminate.
  case_match; [|discriminate]. intros [= <-] x y _ _. apply tiny_pixel_ok.
Qed.

Lemma tiny_resize_size img w h img' :
  Tiny.resize img w h = Some img' →
  Z.of_nat (PIL.width img') = w ∧ Z.of_nat (PIL.height img') = h.
Proof.
  unfold Tiny.resize. case_match eqn:Hc; [|discriminate]. intros [= <-].
  rewrite !andb_true_iff in Hc. destruct Hc as [[[Hw Hh] _] _].
  apply Z.ltb_lt in Hw, Hh.
  unfold PIL.width, PIL.height. simpl. lia.
Qed.

Lemma tiny_resize_mode img w h img' :
  PIL.mode_RGB img → Tiny.resize img w h = Some img' → PIL.mode_RGB img'.
Proof.
  unfold Tiny.resize. intros Hm. case_match eqn:Hc; [|discriminate]. intros [= <-].
  rewrite !andb_true_iff in Hc. destruct Hc as [[[Hw Hh] HW] HH].
  apply Z.ltb_lt in Hw, Hh. apply Nat.ltb_lt in HW, HH.
  intros x y Hx Hy. unfold PIL.width, PIL.height in Hx, Hy. simpl in *.
  apply Hm.
  - apply Nat.Div0.div_lt_upper_bound. nia.
  - apply Nat.Div0.div_lt_upper_bound. nia.
Qed.

Definition tiny : PIL.Library :=
  {| PIL.open_RGB := Tiny.open_RGB;
     PIL.resize := Tiny.resize;
     PIL.open_RGB_mode := tiny_open_mode;
     PIL.resize_size := tiny_resize_size;
     PIL.resize_mode := tiny_resize_mode |}.

(** ** Bits of a packed pixel *)

Section Bits.
Local Open Scope Z_scope.

(** [(r << 16) | (g << 8) | b], the value [convert] packs. *)
Definition word_of (p : PIL.rgb) : Z :=
  let '(r, g, b) := p in
  Z.lor (Z.lor (Z.shiftl r 16) (Z.shiftl g 8)) b.

(** The bands of a word [0x00RRGGBB]. *)
Definition bands_of (v : Z) : PIL.rgb :=
  (Z.land (Z.shiftr v 16) 255, Z.land (Z.shiftr v 8) 255, Z.land v 255).

Lemma byte_bits_high v n : 0 ≤ v ≤ 255 → 8 ≤ n → Z.testbit v n = false.
Proof.
  intros Hv Hn. destruct (Z.eq_dec v 0) as [->|Hne]; [apply Z.bits_0|].
  apply Z.bits_above_log2; [lia|].
  assert (Z.log2 v < 8); [|lia].
  apply Z.log2_lt_pow2; [lia|]. change (2 ^ 8) with 256. lia.
Qed.

Lemma word_bits_high v n : 0 ≤ v ≤ 4294967295 → 32 ≤ n → Z.testbit v n = false.
Proof.
  intros Hv Hn. destruct (Z.eq_dec v 0) as [->|Hne]; [apply Z.bits_0|].
  apply Z.bits_above_log2; [lia|].
  assert (Z.log2 v < 32); [|lia].
  apply Z.log2_lt_pow2; [lia|]. change (2 ^ 32) with 4294967296. lia.
Qed.

Ltac bit_cases n :=
  repeat match goal with
  | |- context [Z.testbit (Z.ones ?k) ?m] =>
      first [ rewrite (Z.ones_spec_low k m) by lia
            | rewrite (Z.ones_spec_high k m) by lia ]
  | |- context [Z.testbit (Z.shiftr ?v ?k) ?m] =>
      rewrite (Z.shiftr_spec v k m) by lia
  | |- context [Z.testbit ?v ?m] =>
      first [ rewrite (Z.testbit_neg_r v m) by lia
            | rewrite (byte_bits_high v m) by lia
            | rewrite (word_bits_high v m) by lia ]
  end;
  simpl; rewrite ?andb_true_r, ?andb_false_r, ?orb_false_r, ?orb_false_l;
  try reflexivity.

Ltac bitwise n :=
  apply Z.bits_inj'; intros n ?;
  repeat first [ rewrite Z.land_spec | rewrite Z.lor_spec
               | rewrite Z.shiftr_spec by lia
               | rewrite Z.shiftl_spec by lia ].

Lemma land_255_range v : 0 ≤ Z.land v 255 ≤ 255.
Proof.
  assert (Z.land v 255 = v mod 256) as ->.
  { change 255 with (Z.ones 8). apply Z.land_ones. lia. }
  pose proof (Z.mod_pos_bound v 256). lia.
Qed.

Lemma land_255_byte v : 0 ≤ v ≤ 255 → Z.land v 255 = v.
Proof.
  intros Hv. change 255 with (Z.ones 8). rewrite Z.land_ones by lia.
  apply Z.mod_small. change (2 ^ 8) with 256. lia.
Qed.

Lemma ord_octet_land v : Struct.ord (Struct.octet v) = Z.land v 255.
Proof.
  pose proof (land_255_range v) as Hr.
  unfold Struct.ord, Struct.octet.
  destruct (Byte.of_N (Z.to_N (Z.land v 255))) as [b|] eqn:Hb.
  - apply Byte.to_of_N in Hb. rewrite Hb. lia.
  - apply Byte.of_N_None_iff in Hb. lia.
Qed.

Lemma octet_land_eq u v : Z.land u 255 = Z.land v 255 → Struct.octet u = Struct.octet v.
Proof. unfold Struct.octet. intros ->. reflexivity. Qed.

Section Bands.
Variables r g b : Z.
Hypothesis Hok : PIL.rgb_ok (r, g, b).

Lemma word_blue : Z.land (word_of (r, g, b)) 255 = b.
Proof.
  destruct Hok as (? & ? & ?). unfold word_of.
  change 255 with (Z.ones 8). bitwise n.
  destruct (Z.lt_ge_cases n 8); bit_cases n.
Qed.

Lemma word_green : Z.land (Z.shiftr (word_of (r, g, b)) 8) 255 = g.
Proof.
  destruct Hok as (? & ? & ?). unfold word_of.
  change 255 with (Z.ones 8). bitwise n.
  destruct (Z.lt_ge_cases n 8); bit_cases n.
  f_equal. lia.
Qed.

Lemma word_red : Z.land (Z.shiftr (word_of (r, g, b)) 16) 255 = r.
Proof.
  destruct Hok as (? & ? & ?). unfold word_of.
  change 255 with (Z.ones 8). bitwise n.
  destruct (Z.lt_ge_cases n 8); bit_cases n.
  f_equal. lia.
Qed.

Lemma word_top : Z.shiftr (word_of (r, g, b)) 24 = 0.
Proof.
  destruct Hok as (? & ? & ?). unfold word_of.
  bitwise n. rewrite Z.bits_0. bit_cases n.
Qed.

Lemma word_low24 : Z.land (word_of (r, g, b)) 16777215 = word_of (r, g, b).
Proof.
  destruct Hok as (? & ? & ?). unfold word_of.
  change 16777215 with (Z.ones 24). bitwise n.
  destruct (Z.lt_ge_cases n 24); bit_cases n.
Qed.

Lemma word_range : 0 ≤ word_of (r, g, b) ≤ 16777215.
Proof.
  rewrite <- word_low24.
  assert (Z.land (word_of (r, g, b)) 16777215 = word_of (r, g, b) mod 16777216) as ->.
  { change 16777215 with (Z.ones 24). apply Z.land_ones. lia. }
  pose proof (Z.mod_pos_bound (word_of (r, g, b)) 16777216). lia.
Qed.

(** The four bytes written for a pixel: blue, green, red, zero. *)
Lemma pack_word :
  Struct.pack_I (word_of (r, g, b))
  = Some [Struct.octet b; Struct.octet g; Struct.octet r; x00].
Proof.
  pose proof word_range as Hr. destruct Hok as (? & ? & ?).
  unfold Struct.pack_I.
  replace (0 <=? word_of (r, g, b)) with true by (symmetry; apply Z.leb_le; lia).
  replace (word_of (r, g, b) <=? 4294967295) with true
    by (symmetry; apply Z.leb_le; lia).
  cbn [andb]. do 2 f_equal; [|f_equal; [|f_equal; [|f_equal]]].
  - apply octet_land_eq. rewrite word_blue, land_255_byte by lia. reflexivity.
  - apply octet_land_eq. rewrite word_green, land_255_byte by lia. reflexivity.
  - apply octet_land_eq. rewrite word_red, land_255_byte by lia. reflexivity.
  - rewrite word_top. reflexivity.
Qed.

Lemma bands_word : bands_of (word_of (r, g, b)) = (r, g, b).
Proof. unfold bands_of. rewrite word_red, word_green, word_blue. reflexivity. Qed.
End Bands.

(** Reading four packed bytes back gives the value that was packed. *)
Lemma unpack_pack v bs : Struct.pack_I v = Some bs → Struct.unpack_I bs = Some v.
Proof.
  unfold Struct.pack_I. destruct (_ && _) eqn:Hr; [|discriminate].
  apply andb_true_iff in Hr as [H0 H1]. apply Z.leb_le in H0, H1.
  intros [= <-]. unfold Struct.unpack_I. f_equal.
  rewrite !ord_octet_land. change 255 with (Z.ones 8). bitwise n.
  destruct (Z.lt_ge_cases n 8); bit_cases n.
  destruct (Z.lt_ge_cases n 16); bit_cases n.
  { f_equal. lia. }
  destruct (Z.lt_ge_cases n 24); bit_cases n.
  { f_equal. lia. }
  destruct (Z.lt_ge_cases n 32); bit_cases n.
  f_equal. lia.
Qed.

Lemma pack_length v bs : Struct.pack_I v = Some bs → length bs = 4%nat.
Proof.
  unfold Struct.pack_I. destruct (_ && _); [|discriminate].
  intros [= <-]. reflexivity.
Qed.
End Bits.

(** ** What the two loops write *)

(** The pixels of an image in the order the loops visit them: rows from
    the top, each row from the left. *)
Definition row_major (img : PIL.Image) : list PIL.rgb :=
  concat (map (λ y, map (λ x, PIL.load img x y) (Py.range (PIL.width img)))
              (Py.range (PIL.height img))).

(** The bytes appended while [body] runs over [l], when [body a] appends
    [enc a]; [None] as soon as one [enc a] is [None]. *)
Fixpoint appended {A} (enc : A → option (list byte)) (l : list A)
  : option (list byte) :=
  match l with
  | [] => Some []
  | a :: l' =>
      match enc a, appended enc l' with
      | Some bs, Some rest => Some (bs ++ rest)
      | _, _ => None
      end
  end.

Definition render_row (img : PIL.Image) (y : nat) : option (list byte) :=
  appended (λ x, Struct.pack_I (word_of (PIL.load img x y)))
           (Py.range (PIL.width img)).

(** The whole file, or [None] when some pixel cannot be packed. *)
Definition render (img : PIL.Image) : option (list byte) :=
  appended (render_row img) (Py.range (PIL.height img)).

(** Four bytes per pixel: blue, green, red, zero. *)
Definition xrgb8888 (p : PIL.rgb) : list byte :=
  let '(r, g, b) := p in
  [Struct.octet b; Struct.octet g; Struct.octet r; x00].

Section Loops.
Import Py.

Lemma bind_run {A B} (c : M A) (k : A → M B) σ :
  bind c k σ = match c σ with
               | (Normal a, σ') => k a σ'
               | (Raise e, σ') => (Raise e, σ')
               end.
Proof. reflexivity. Qed.

Lemma open_wb_ok path σ :
  writable σ path = true →
  open_wb path σ
  = (Normal path,
     with_files (<[path := []]> (files σ)) (logged (CallOpenWb path) σ)).
Proof. unfold open_wb. simpl. by intros ->. Qed.

Lemma open_wb_fail path σ :
  writable σ path = false →
  open_wb path σ = (Raise OSError, logged (CallOpenWb path) σ).
Proof. unfold open_wb. simpl. by intros ->. Qed.

Lemma with_files_same σ : with_files (files σ) σ = σ.
Proof. destruct σ. reflexivity. Qed.

(** [c] only appends [out] to the file [f], or raises [struct.error]. *)
Definition appends (f : string) (c : M unit) (out : option (list byte)) : Prop :=
  ∀ σ old, files σ !! f = Some old →
    match out with
    | Some bs => c σ = (Normal tt, with_files (<[f := old ++ bs]> (files σ)) σ)
    | None => ∃ σ', c σ = (Raise StructError, σ')
    end.

Lemma for_appends {A} f (enc : A → option (list byte)) (body : A → M unit) l :
  (∀ a, appends f (body a) (enc a)) →
  appends f (for_ l body) (appended enc l).
Proof.
  intros Hbody. induction l as [|a l IH]; intros σ old Hf; simpl.
  - unfold ret. rewrite app_nil_r, insert_id by done.
    by rewrite with_files_same.
  - specialize (Hbody a σ old Hf). unfold bind.
    destruct (enc a) as [bs|].
    + rewrite Hbody.
      specialize (IH (with_files (<[f := old ++ bs]> (files σ)) σ) (old ++ bs)).
      simpl in IH. rewrite lookup_insert_eq in IH. specialize (IH eq_refl).
      destruct (appended enc l) as [rest|].
      * rewrite IH. unfold with_files. simpl.
        by rewrite insert_insert_eq, app_assoc.
      * destruct IH as [σ' ->]. eauto.
    + destruct Hbody as [σ' ->]. eauto.
Qed.

Lemma pixel_appends f (p : PIL.rgb) :
  appends f
    (let '(r, g, b) := p in
     let! word := struct_pack_I (Z.lor (Z.lor (Z.shiftl r 16) (Z.shiftl g 8)) b) in
     write f word)
    (Struct.pack_I (word_of p)).
Proof.
  destruct p as [[r g] b]. intros σ old Hf. unfold word_of, bind, struct_pack_I.
  destruct (Struct.pack_I _) as [bs|]; simpl.
  - unfold write. by rewrite Hf.
  - unfold raise. eauto.
Qed.

Lemma appended_length {A} (enc : A → option (list byte)) n l out :
  (∀ a bs, enc a = Some bs → length bs = n) →
  appended enc l = Some out → length out = n * length l.
Proof.
  intros Henc. revert out. induction l as [|a l IH]; intros out; simpl.
  - intros [= <-]. simpl. lia.
  - destruct (enc a) as [bs|] eqn:Ha; [|discriminate].
    destruct (appended enc l) as [rest|]; [|discriminate].
    intros [= <-]. rewrite length_app, (Henc _ _ Ha), (IH rest eq_refl). lia.
Qed.

Lemma appended_total {A} (enc : A → option (list byte)) (f : A → list byte) l :
  (∀ a, a ∈ l → enc a = Some (f a)) →
  appended enc l = Some (concat (map f l)).
Proof.
  induction l as [|a l IH]; intros Henc; simpl; [done|].
  rewrite (Henc a) by left. rewrite IH; [done|].
  intros a' Ha'. apply Henc. by right.
Qed.
End Loops.

Lemma range_length n : length (Py.range n) = n.
Proof. apply length_seq. Qed.

Lemma range_elem n i : i ∈ Py.range n ↔ i < n.
Proof. unfold Py.range. rewrite elem_of_seq. lia. Qed.

Lemma range_lookup n i : i < n → Py.range n !! i = Some i.
Proof. intros Hi. unfold Py.range. by rewrite lookup_seq_lt. Qed.

(** [render] gives four bytes for every pixel, with nothing between rows. *)
Lemma render_length img out :
  render img = Some out → length out = PIL.width img * PIL.height img * 4.
Proof.
  intros Hr. unfold render in Hr.
  apply (appended_length _ (4 * PIL.width img)) in Hr.
  - rewrite Hr, range_length. lia.
  - intros y bs Hy. unfold render_row in Hy.
    apply (appended_length _ 4) in Hy.
    + rewrite Hy, range_length. lia.
    + intros x ws. apply pack_length.
Qed.

Lemma concat_map_concat {A B} (f : A → list B) (ls : list (list A)) :
  concat (map (λ l, concat (map f l)) ls) = concat (map f (concat ls)).
Proof.
  induction ls as [|l ls IH]; simpl; [done|].
  by rewrite map_app, concat_app, IH.
Qed.

(** On an image in mode RGB every pixel packs, and the file is the
    pixels' four-byte words in row-major order. *)
Lemma render_mode_RGB img :
  PIL.mode_RGB img → render img = Some (concat (map xrgb8888 (row_major img))).
Proof.
  intros Hm. unfold render, row_major.
  rewrite <- concat_map_concat, map_map.
  apply appended_total. intros y Hy%range_elem. unfold render_row.
  rewrite map_map. apply appended_total. intros x Hx%range_elem.
  specialize (Hm x y Hx Hy). destruct (PIL.load img x y) as [[r g] b].
  by apply pack_word.
Qed.

(** ** One call of [convert] *)

Section Convert.
Context `{PIL.Library}.
Import Py.

(** The image [convert] writes: the decoded one, or its resize when
    [width and height] is true; [None] when the resize raises. *)
Definition target (src : PIL.Image) (width height : option Z)
  : option PIL.Image :=
  if Builtins.truthy width && Builtins.truthy height then
    match width, height with
    | Some w, Some h => PIL.resize src w h
    | _, _ => None
    end
  else Some src.

Definition resize_calls (width height : option Z) : list call :=
  if Builtins.truthy width && Builtins.truthy height then
    match width, height with
    | Some w, Some h => [CallResize w h]
    | _, _ => []
    end
  else [].

(** The state a successful [convert] leaves. *)
Definition converted (inpath outpath : string) (width height : option Z)
    (img : PIL.Image) (out : list byte) (σ : world) : world :=
  World (sys_argv σ) (pillow σ) (<[outpath := out]> (files σ)) (writable σ)
    (stdout σ ++ [done_message (PIL.width img) (PIL.height img) outpath])
    (stderr σ)
    (calls σ ++ CallImageOpen inpath :: resize_calls width height
       ++ [CallOpenWb outpath]).

Lemma loops_append f img w h :
  PIL.size img = (w, h) →
  appends f
    (for_ (range h) (λ y,
       for_ (range w) (λ x,
         let '(r, g, b) := PIL.load img x y in
         let! word :=
           struct_pack_I (Z.lor (Z.lor (Z.shiftl r 16) (Z.shiftl g 8)) b) in
         write f word)))
    (render img).
Proof.
  intros Hs. unfold render, render_row, PIL.width, PIL.height. rewrite Hs. simpl.
  apply for_appends. intros y. apply for_appends. intros x.
  apply pixel_appends.
Qed.

(** Everything after the image is fixed: open, loops, message. *)
Lemma convert_tail img outpath σ w h :
  PIL.size img = (w, h) →
  let tail :=
    (let! f := open_wb outpath in
     run! for_ (range h) (λ y,
            for_ (range w) (λ x,
              let '(r, g, b) := PIL.load img x y in
              let! word :=
                struct_pack_I (Z.lor (Z.lor (Z.shiftl r 16) (Z.shiftl g 8)) b) in
              write f word)) in
     print (done_message w h outpath)) in
  match writable σ outpath, render img with
  | true, Some out =>
      tail σ =
      (Normal tt,
       World (sys_argv σ) (pillow σ) (<[outpath := out]> (files σ))
         (writable σ) (stdout σ ++ [done_message w h outpath]) (stderr σ)
         (calls σ ++ [CallOpenWb outpath]))
  | true, None => ∃ σ', tail σ = (Raise StructError, σ')
  | false, _ => tail σ = (Raise OSError, logged (CallOpenWb outpath) σ)
  end.
Proof.
  intros Hs tail. subst tail.
  pose proof (loops_append outpath img w h Hs) as Hl.
  specialize (Hl (with_files (<[outpath:=[]]> (files σ)) (logged (CallOpenWb outpath) σ)) []).
  simpl in Hl. rewrite lookup_insert_eq in Hl. specialize (Hl eq_refl).
  destruct (writable σ outpath) eqn:Hw.
  - destruct (render img) as [out|].
    + rewrite bind_run, (open_wb_ok _ _ Hw), bind_run, Hl.
      unfold print, with_stdout, with_files. simpl.
      by rewrite insert_insert_eq.
    + destruct Hl as [σ' Hl]. exists σ'.
      by rewrite bind_run, (open_wb_ok _ _ Hw), bind_run, Hl.
  - by rewrite bind_run, (open_wb_fail _ _ Hw).
Qed.

Lemma image_open_run path σ :
  Image_open_convert_RGB path σ
  = match files σ !! path with
    | None => (Raise FileNotFoundError, logged (CallImageOpen path) σ)
    | Some data =>
        match PIL.open_RGB data with
        | Some img => (Normal img, logged (CallImageOpen path) σ)
        | None => (Raise UnidentifiedImageError, logged (CallImageOpen path) σ)
        end
    end.
Proof. reflexivity. Qed.

Lemma resize_step src width height σ :
  (if Builtins.truthy width && Builtins.truthy height
   then Image_resize src (width, height)
   else ret src) σ
  = (match target src width height with
     | Some img => Normal img
     | None => Raise ValueError
     end,
     with_calls (calls σ ++ resize_calls width height) σ).
Proof.
  unfold target, resize_calls.
  destruct width as [w|], height as [h|]; simpl;
    try (destruct σ; unfold ret, with_calls; simpl; by rewrite app_nil_r).
  - destruct (negb (w =? 0)%Z && negb (h =? 0)%Z); simpl.
    + unfold logged. by destruct (PIL.resize src w h).
    + destruct σ; unfold ret, with_calls; simpl; by rewrite app_nil_r.
  - destruct (negb (w =? 0)%Z); simpl;
      destruct σ; unfold ret, with_calls; simpl; by rewrite app_nil_r.
Qed.

(** Every way a call of [convert] can end. *)
Lemma convert_cases inpath outpath width height σ :
  match files σ !! inpath with
  | None =>
      convert inpath outpath width height σ
      = (Raise FileNotFoundError, logged (CallImageOpen inpath) σ)
  | Some data =>
      match PIL.open_RGB data with
      | None =>
          convert inpath outpath width height σ
          = (Raise UnidentifiedImageError, logged (CallImageOpen inpath) σ)
      | Some src =>
          match target src width height with
          | None =>
              convert inpath outpath width height σ
              = (Raise ValueError,
                 with_calls (calls σ ++ CallImageOpen inpath
                               :: resize_calls width height) σ)
          | Some img =>
              match writable σ outpath, render img with
              | true, Some out =>
                  convert inpath outpath width height σ
                  = (Normal tt, converted inpath outpath width height img out σ)
              | true, None =>
                  ∃ σ', convert inpath outpath width height σ
                        = (Raise StructError, σ')
              | false, _ =>
                  convert inpath outpath width height σ
                  = (Raise OSError,
                     with_calls (calls σ ++ CallImageOpen inpath
                                   :: resize_calls width height
                                   ++ [CallOpenWb outpath]) σ)
              end
          end
      end
  end.
Proof.
  unfold convert. rewrite bind_run, image_open_run.
  destruct (files σ !! inpath) as [data|]; [|done].
  destruct (PIL.open_RGB data) as [src|]; [|done].
  rewrite bind_run, resize_step.
  destruct (target src width height) as [img|].
  2: { unfold with_calls, logged. simpl. by rewrite <- app_assoc. }
  destruct (PIL.size img) as [w h] eqn:Hs.
  pose proof (convert_tail img outpath
    (with_calls (calls (logged (CallImageOpen inpath) σ) ++ resize_calls width height)
       (logged (CallImageOpen inpath) σ)) w h Hs) as Ht.
  simpl in Ht. destruct (writable σ outpath).
  - destruct (render img) as [out|].
    + etrans; [exact Ht|].
      unfold converted, PIL.width, PIL.height. rewrite Hs. simpl.
      do 2 f_equal. by rewrite <- !app_assoc.
    + destruct Ht as [σ' Ht]. exists σ'. exact Ht.
  - etrans; [exact Ht|].
    unfold with_calls, logged. simpl. by rewrite <- !app_assoc.
Qed.

Lemma convert_run inpath outpath width height σ data src img out :
  files σ !! inpath = Some data →
  PIL.open_RGB data = Some src →
  target src width height = Some img →
  writable σ outpath = true →
  render img = Some out →
  convert inpath outpath width height σ
  = (Normal tt, converted inpath outpath width height img out σ).
Proof.
  intros Hf Ho Ht Hw Hr.
  pose proof (convert_cases inpath outpath width height σ) as Hc.
  by rewrite Hf, Ho, Ht, Hw, Hr in Hc.
Qed.

Lemma convert_inv inpath outpath width height σ σ' :
  convert inpath outpath width height σ = (Normal tt, σ') →
  ∃ data src img out,
    files σ !! inpath = Some data ∧
    PIL.open_RGB data = Some src ∧
    target src width height = Some img ∧
    writable σ outpath = true ∧
    render img = Some out ∧
    σ' = converted inpath outpath width height img out σ.
Proof.
  intros Hrun.
  pose proof (convert_cases inpath outpath width height σ) as Hc.
  destruct (files σ !! inpath) as [data|]; [|congruence].
  destruct (PIL.open_RGB data) as [src|] eqn:Ho; [|congruence].
  destruct (target src width height) as [img|] eqn:Ht; [|congruence].
  destruct (writable σ outpath) eqn:Hw; [|congruence].
  destruct (render img) as [out|] eqn:Hr.
  - exists data, src, img, out. repeat split; try done. congruence.
  - destruct Hc as [σ'' Hc]. congruence.
Qed.

(** On a decodable input and a writable output, [convert] returns. *)
Lemma target_mode src width height img :
  PIL.mode_RGB src → target src width height = Some img → PIL.mode_RGB img.
Proof.
  unfold target. intros Hm.
  destruct (_ && _); [|by intros [= <-]].
  destruct width as [w|], height as [h|]; try discriminate.
  by apply PIL.resize_mode.
Qed.
End Convert.

(** ** Where a pixel lands in the file *)

Lemma map_lookup {A B} (f : A → B) (l : list A) i : map f l !! i = f <$> l !! i.
Proof.
  revert i. induction l as [|a l IH]; intros [|i]; simpl; done.
Qed.

(** In a concatenation of chunks of [n] elements, chunk [k] is the
    slice of length [n] at offset [n * k]. *)
Lemma concat_chunk {A} n (ls : list (list A)) k c :
  Forall (λ c, length c = n) ls →
  ls !! k = Some c →
  take n (drop (n * k) (concat ls)) = c.
Proof.
  intros Hall. revert k. induction Hall as [|a ls Ha Hall IH]; intros k Hk.
  - done.
  - destruct k as [|k]; simpl in *.
    + injection Hk as ->. rewrite Nat.mul_0_r. simpl.
      rewrite <- Ha. apply take_app_length.
    + replace (n * S k) with (length a + n * k) by lia.
      rewrite drop_app_add. by apply IH.
Qed.

Lemma concat_lookup {A} n (ls : list (list A)) k i c :
  Forall (λ c, length c = n) ls →
  ls !! k = Some c → i < n →
  concat ls !! (n * k + i) = c !! i.
Proof.
  intros Hall Hk Hi.
  rewrite <- (concat_chunk n ls k c Hall Hk).
  by rewrite lookup_take_lt, lookup_drop.
Qed.

Lemma concat_uniform_length {A} n (ls : list (list A)) :
  Forall (λ c, length c = n) ls → length (concat ls) = n * length ls.
Proof.
  induction 1 as [|c ls Hc _ IH]; simpl; [lia|].
  rewrite length_app, Hc, IH. lia.
Qed.

Lemma Forall_map_range {A} (P : A → Prop) (f : nat → A) n :
  (∀ i, i < n → P (f i)) → Forall P (map f (Py.range n)).
Proof.
  intros Hf. apply Forall_forall. intros c Hc.
  apply list_elem_of_lookup in Hc as [i Hi]. rewrite map_lookup in Hi.
  destruct (Py.range n !! i) as [j|] eqn:Hj; [|done].
  injection Hi as <-. apply Hf, range_elem. by eapply list_elem_of_lookup_2.
Qed.

Lemma row_major_rows img :
  Forall (λ c, length c = PIL.width img)
    (map (λ y, map (λ x, PIL.load img x y) (Py.range (PIL.width img)))
         (Py.range (PIL.height img))).
Proof.
  apply Forall_map_range. intros y _. by rewrite length_map, range_length.
Qed.

Lemma row_major_length img :
  length (row_major img) = PIL.width img * PIL.height img.
Proof.
  unfold row_major.
  rewrite (concat_uniform_length _ _ (row_major_rows img)).
  by rewrite length_map, range_length.
Qed.

(** Pixel [(x, y)] is element [y * W + x] of the row-major order. *)
Lemma row_major_lookup img x y :
  x < PIL.width img → y < PIL.height img →
  row_major img !! (y * PIL.width img + x) = Some (PIL.load img x y).
Proof.
  intros Hx Hy. unfold row_major. rewrite (Nat.mul_comm y).
  rewrite (concat_lookup (PIL.width img) _ y x
             (map (λ x, PIL.load img x y) (Py.range (PIL.width img)))).
  - by rewrite map_lookup, range_lookup.
  - apply row_major_rows.
  - by rewrite map_lookup, range_lookup.
  - done.
Qed.

(** The four bytes of pixel [(x, y)] start at byte [4 * (y * W + x)]. *)
Lemma xrgb8888_slice img x y :
  x < PIL.width img → y < PIL.height img →
  take 4 (drop (4 * (y * PIL.width img + x))
            (concat (map xrgb8888 (row_major img))))
  = xrgb8888 (PIL.load img x y).
Proof.
  intros Hx Hy. apply concat_chunk.
  - apply Forall_forall. intros c Hc.
    apply list_elem_of_lookup in Hc as [i Hi]. rewrite map_lookup in Hi.
    destruct (row_major img !! i) as [[[r g] b]|]; [|done].
    by injection Hi as <-.
  - by rewrite map_lookup, row_major_lookup.
Qed.

(** ** Reading the file back *)

(** [n] consecutive little-endian 32-bit words from the front of [bs];
    [None] when [bs] is too short. *)
Fixpoint read_words (n : nat) (bs : list byte) : option (list Z) :=
  match n with
  | 0 => Some []
  | S n' =>
      match Struct.unpack_I (take 4 bs), read_words n' (drop 4 bs) with
      | Some v, Some vs => Some (v :: vs)
      | _, _ => None
      end
  end.

(** The pixel a consumer sees in a word: its low 24 bits, split in bands. *)
Definition pixel_of_word (v : Z) : PIL.rgb := bands_of (Z.land v 16777215).

Lemma unpack_xrgb8888 p :
  PIL.rgb_ok p → Struct.unpack_I (xrgb8888 p) = Some (word_of p).
Proof.
  destruct p as [[r g] b]. intros Hok. apply unpack_pack. by apply pack_word.
Qed.

Lemma read_words_xrgb8888 (ps : list PIL.rgb) :
  Forall PIL.rgb_ok ps →
  read_words (length ps) (concat (map xrgb8888 ps)) = Some (map word_of ps).
Proof.
  induction 1 as [|p ps Hp _ IH]; [done|].
  pose proof (unpack_xrgb8888 p Hp) as Hu.
  destruct p as [[r g] b].
  cbn [length map concat xrgb8888 app read_words firstn skipn].
  rewrite take_0, drop_0. unfold xrgb8888 in Hu. by rewrite Hu, IH.
Qed.

Lemma row_major_mode img : PIL.mode_RGB img → Forall PIL.rgb_ok (row_major img).
Proof.
  intros Hm. unfold row_major. apply Forall_concat, Forall_map_range.
  intros y Hy. apply Forall_map_range. intros x Hx. by apply Hm.
Qed.

(** ** The script from the command line *)

Section Run.
Context `{PIL.Library} `{Builtins.Python}.
Import Py.

Lemma script_without_pillow σ :
  pillow σ = false →
  raw_convert_py σ
  = (Raise (SystemExit 1), with_stderr (stderr σ ++ [pillow_message]) σ).
Proof.
  intros Hp. unfold raw_convert_py. rewrite bind_run.
  unfold try_except, import_PIL. by rewrite Hp.
Qed.

Lemma script_with_pillow σ : pillow σ = true → raw_convert_py σ = main σ.
Proof.
  intros Hp. unfold raw_convert_py. rewrite bind_run.
  unfold try_except, import_PIL. by rewrite Hp.
Qed.

Lemma main_usage σ prog rest :
  sys_argv σ = prog :: rest → length rest < 2 →
  main σ
  = (Raise (SystemExit 1), with_stdout (stdout σ ++ [usage_message prog]) σ).
Proof.
  intros Ha Hl. unfold main. rewrite Ha.
  destruct rest as [|a [|b rest]]; simpl in Hl; try lia; reflexivity.
Qed.

Lemma main_plain σ prog inpath outpath rest :
  sys_argv σ = prog :: inpath :: outpath :: rest → length rest < 2 →
  main σ = convert inpath outpath None None σ.
Proof.
  intros Ha Hl. unfold main. rewrite Ha.
  destruct rest as [|a [|b rest]]; simpl in Hl; try lia; reflexivity.
Qed.

Lemma main_sized σ prog inpath outpath ws hs rest :
  sys_argv σ = prog :: inpath :: outpath :: ws :: hs :: rest →
  main σ
  = match Builtins.int ws, Builtins.int hs with
    | Some w, Some h => convert inpath outpath (Some w) (Some h) σ
    | _, _ => (Raise ValueError, σ)
    end.
Proof.
  intros Ha. unfold main. rewrite Ha.
  cbn [length Nat.ltb Nat.leb]. rewrite !bind_run. cbn [ret].
  rewrite !bind_run. unfold index, int_. cbn [lookup list_lookup].
  cbn [ret]. rewrite !bind_run.
  destruct (Builtins.int ws) as [w|]; [|done].
  cbn [ret]. rewrite !bind_run. cbn [ret].
  destruct (Builtins.int hs) as [h|]; done.
Qed.
End Run.

(** ** The output file *)

Section Output.
Context `{PIL.Library}.
Import Py.

(** A successful [convert] wrote an image in mode RGB. *)
Lemma convert_inv_mode inpath outpath width height σ σ' :
  convert inpath outpath width height σ = (Normal tt, σ') →
  ∃ data src img,
    files σ !! inpath = Some data ∧
    PIL.open_RGB data = Some src ∧
    target src width height = Some img ∧
    PIL.mode_RGB img ∧
    writable σ outpath = true ∧
    σ' = converted inpath outpath width height img
           (concat (map xrgb8888 (row_major img))) σ.
Proof.
  intros (data & src & img & out & Hf & Ho & Ht & Hw & Hr & ->)%convert_inv.
  assert (PIL.mode_RGB img) as Hm.
  { eapply target_mode; [|exact Ht]. by eapply PIL.open_RGB_mode. }
  rewrite (render_mode_RGB img Hm) in Hr. injection Hr as <-.
  by exists data, src, img.
Qed.

(** C1. Whenever [convert] returns normally, the file at [outpath]
    holds exactly [W * H * 4] bytes, where [W] and [H] are the width
    and height of the image that was written (the decoded image, or its
    resize); for a 1x1 image that is 4 bytes. *)
Theorem convert_output_length inpath outpath width height σ σ' :
  convert inpath outpath width height σ = (Normal tt, σ') →
  ∃ data src img out,
    files σ !! inpath = Some data ∧
    PIL.open_RGB data = Some src ∧
    target src width height = Some img ∧
    files σ' !! outpath = Some out ∧
    length out = PIL.width img * PIL.height img * 4 ∧
    (PIL.size img = (1, 1) → length out = 4).
Proof.
  intros (data & src & img & out & Hf & Ho & Ht & Hw & Hr & ->)%convert_inv.
  exists data, src, img, out.
  pose proof (render_length img out Hr) as Hlen.
  repeat split; try done.
  - unfold converted. simpl. apply lookup_insert_eq.
  - intros Hs. rewrite Hlen. unfold PIL.width, PIL.height. by rewrite Hs.
Qed.

(** [convert] does return on a readable image and a writable path, when
    no resize is asked for or the resize succeeds. *)
Lemma convert_returns inpath outpath width height σ data src img :
  files σ !! inpath = Some data →
  PIL.open_RGB data = Some src →
  target src width height = Some img →
  writable σ outpath = true →
  convert inpath outpath width height σ
  = (Normal tt,
     converted inpath outpath width height img
       (concat (map xrgb8888 (row_major img))) σ).
Proof.
  intros Hf Ho Ht Hw. eapply convert_run; try done.
  apply render_mode_RGB. eapply target_mode; [|exact Ht].
  by eapply PIL.open_RGB_mode.
Qed.

(** C2. A pixel with bands in 0..255 is packed as the four bytes
    B, G, R, 0x00, the little-endian form of [(R << 16) | (G << 8) | B];
    a successful [convert] writes exactly these words for the pixels of
    the image; a red pixel gives 00 00 FF 00; and a 2x2 all-red image
    converted without sizes gives sixteen bytes, four such words. *)
Theorem convert_writes_xrgb8888 :
  (∀ r g b, PIL.rgb_ok (r, g, b) →
     Struct.pack_I (Z.lor (Z.lor (Z.shiftl r 16) (Z.shiftl g 8)) b)
     = Some [Struct.octet b; Struct.octet g; Struct.octet r; x00]
     ∧ Struct.unpack_I [Struct.octet b; Struct.octet g; Struct.octet r; x00]
       = Some (Z.lor (Z.lor (Z.shiftl r 16) (Z.shiftl g 8)) b)) ∧
  (∀ inpath outpath width height σ σ',
     convert inpath outpath width height σ = (Normal tt, σ') →
     ∃ data src img,
       files σ !! inpath = Some data ∧ PIL.open_RGB data = Some src ∧
       target src width height = Some img ∧
       files σ' !! outpath = Some (concat (map xrgb8888 (row_major img)))) ∧
  xrgb8888 (255, 0, 0)%Z = [x00; x00; xff; x00] ∧
  (∀ inpath outpath σ data src,
     files σ !! inpath = Some data →
     PIL.open_RGB data = Some src →
     PIL.size src = (2, 2) →
     (∀ x y, x < 2 → y < 2 → PIL.load src x y = (255, 0, 0)%Z) →
     writable σ outpath = true →
     ∃ σ', convert inpath outpath None None σ = (Normal tt, σ') ∧
           files σ' !! outpath
           = Some [x00; x00; xff; x00; x00; x00; xff; x00;
                   x00; x00; xff; x00; x00; x00; xff; x00]).
Proof.
  split; [|split; [|split]].
  - intros r g b Hok. pose proof (pack_word r g b Hok) as Hp.
    split; [exact Hp|]. by apply unpack_pack.
  - intros inpath outpath width height σ σ' Hrun.
    apply convert_inv_mode in Hrun
      as (data & src & img & Hf & Ho & Ht & Hm & Hw & ->).
    exists data, src, img. repeat split; try done.
    unfold converted. simpl. apply lookup_insert_eq.
  - reflexivity.
  - intros inpath outpath σ data src Hf Ho Hs Hpx Hw.
    eexists. split.
    + by apply (convert_returns _ _ None None σ data src src).
    + unfold converted. simpl. rewrite lookup_insert_eq. f_equal.
      unfold row_major, PIL.width, PIL.height. rewrite Hs. simpl.
      rewrite !Hpx by lia. reflexivity.
Qed.

(** C3. Pixels are written row by row from the top, each row from the
    left: after a successful [convert] the word of pixel [(x, y)] of
    the [W]x[H] image fills bytes [4*(y*W+x)] up to [4*(y*W+x)+4] of
    the file. *)
Theorem convert_row_major inpath outpath width height σ σ' :
  convert inpath outpath width height σ = (Normal tt, σ') →
  ∃ data src img out,
    files σ !! inpath = Some data ∧
    PIL.open_RGB data = Some src ∧
    target src width height = Some img ∧
    files σ' !! outpath = Some out ∧
    ∀ x y, x < PIL.width img → y < PIL.height img →
      4 * (y * PIL.width img + x) + 4 ≤ length out ∧
      take 4 (drop (4 * (y * PIL.width img + x)) out)
      = xrgb8888 (PIL.load img x y) ∧
      Struct.pack_I (word_of (PIL.load img x y))
      = Some (take 4 (drop (4 * (y * PIL.width img + x)) out)).
Proof.
  intros Hrun.
  apply convert_inv_mode in Hrun
    as (data & src & img & Hf & Ho & Ht & Hm & Hw & ->).
  exists data, src, img, (concat (map xrgb8888 (row_major img))).
  do 3 (split; [done|]).
  split; [unfold converted; simpl; apply lookup_insert_eq|].
  intros x y Hx Hy. split; [|split].
  - rewrite (concat_uniform_length 4).
    + rewrite length_map, row_major_length. nia.
    + apply Forall_forall. intros c Hc.
      apply list_elem_of_lookup in Hc as [i Hi]. rewrite map_lookup in Hi.
      destruct (row_major img !! i) as [[[r g] b]|]; [|done].
      by injection Hi as <-.
  - by apply xrgb8888_slice.
  - rewrite xrgb8888_slice by done.
    specialize (Hm x y Hx Hy). destruct (PIL.load img x y) as [[r g] b].
    by apply pack_word.
Qed.
End Output.

(** ** Reading back, repeating, and zero sizes *)

Section Relations.
Context `{PIL.Library}.
Import Py.

Lemma pixel_of_word_of p : PIL.rgb_ok p → pixel_of_word (word_of p) = p.
Proof.
  destruct p as [[r g] b]. intros Hok. unfold pixel_of_word.
  by rewrite word_low24, bands_word.
Qed.

(** C7. The file [convert] wrote reads back as [W * H] little-endian
    words and nothing more; masking each word to its low 24 bits gives
    back the bands of the image that was written, pixel for pixel, and
    the top byte of every word is zero. *)
Theorem raw_round_trip inpath outpath width height σ σ' :
  convert inpath outpath width height σ = (Normal tt, σ') →
  ∃ data src img out ws,
    files σ !! inpath = Some data ∧
    PIL.open_RGB data = Some src ∧
    target src width height = Some img ∧
    files σ' !! outpath = Some out ∧
    length out = 4 * (PIL.width img * PIL.height img) ∧
    read_words (PIL.width img * PIL.height img) out = Some ws ∧
    map pixel_of_word ws = row_major img ∧
    Forall (λ v, Z.shiftr v 24 = 0%Z) ws ∧
    ∀ x y, x < PIL.width img → y < PIL.height img →
      ∃ v, ws !! (y * PIL.width img + x) = Some v ∧
           pixel_of_word v = PIL.load img x y ∧
           out !! (4 * (y * PIL.width img + x) + 3) = Some x00.
Proof.
  intros Hrun.
  apply convert_inv_mode in Hrun
    as (data & src & img & Hf & Ho & Ht & Hm & Hw & ->).
  pose proof (row_major_mode img Hm) as Hall.
  exists data, src, img, (concat (map xrgb8888 (row_major img))),
    (map word_of (row_major img)).
  do 3 (split; [done|]).
  split; [unfold converted; simpl; apply lookup_insert_eq|].
  split.
  { rewrite (concat_uniform_length 4).
    - by rewrite length_map, row_major_length.
    - apply Forall_forall. intros c Hc.
      apply list_elem_of_lookup in Hc as [i Hi]. rewrite map_lookup in Hi.
      destruct (row_major img !! i) as [[[r g] b]|]; [|done].
      by injection Hi as <-. }
  split.
  { rewrite <- row_major_length. by apply read_words_xrgb8888. }
  split.
  { rewrite map_map. induction Hall as [|p ps Hp _ IH]; simpl; [done|].
    by rewrite pixel_of_word_of, IH. }
  split.
  { induction Hall as [|p ps Hp _ IH]; simpl; constructor; [|done].
    destruct p as [[r g] b]. by apply word_top. }
  intros x y Hx Hy. exists (word_of (PIL.load img x y)).
  split; [by rewrite map_lookup, row_major_lookup|].
  split; [by apply pixel_of_word_of, Hm|].
  pose proof (xrgb8888_slice img x y Hx Hy) as Hs.
  rewrite <- lookup_drop, <- (lookup_take_lt _ 4) by lia.
  rewrite Hs. by destruct (PIL.load img x y) as [[r g] b].
Qed.

(** C8. The outcome of [convert] and the bytes it leaves at [outpath]
    depend only on the bytes of the input file, the sizes asked for and
    whether [outpath] can be written: two runs that agree on these end
    the same way and, when they return, leave identical files.  The
    resize is Pillow's, a function of the image and the size. *)
Theorem convert_deterministic inpath outpath width height σ1 σ2 :
  files σ1 !! inpath = files σ2 !! inpath →
  writable σ1 outpath = writable σ2 outpath →
  fst (convert inpath outpath width height σ1)
  = fst (convert inpath outpath width height σ2) ∧
  (fst (convert inpath outpath width height σ1) = Normal tt →
   is_Some (files (snd (convert inpath outpath width height σ1)) !! outpath) ∧
   files (snd (convert inpath outpath width height σ1)) !! outpath
   = files (snd (convert inpath outpath width height σ2)) !! outpath).
Proof.
  intros Hf Hw.
  pose proof (convert_cases inpath outpath width height σ1) as H1.
  pose proof (convert_cases inpath outpath width height σ2) as H2.
  rewrite <- Hf, <- Hw in H2.
  destruct (files σ1 !! inpath) as [data|].
  2: { rewrite H1, H2. by split. }
  destruct (PIL.open_RGB data) as [src|].
  2: { rewrite H1, H2. by split. }
  destruct (target src width height) as [img|].
  2: { rewrite H1, H2. by split. }
  destruct (writable σ1 outpath).
  2: { rewrite H1, H2. by split. }
  destruct (render img) as [out|].
  - rewrite H1, H2. split; [done|]. intros _. unfold converted. simpl.
    rewrite !lookup_insert_eq. eauto.
  - destruct H1 as [σ1' ->], H2 as [σ2' ->]. by split.
Qed.

(** Converting a second time, to another file than the input, leaves the
    same files as the first time. *)
Lemma convert_twice inpath outpath width height σ σ' :
  inpath ≠ outpath →
  convert inpath outpath width height σ = (Normal tt, σ') →
  ∃ σ'', convert inpath outpath width height σ' = (Normal tt, σ'') ∧
         files σ'' = files σ'.
Proof.
  intros Hne Hrun.
  apply convert_inv_mode in Hrun
    as (data & src & img & Hf & Ho & Ht & Hm & Hw & ->).
  eexists. split.
  - eapply convert_returns; [|exact Ho|exact Ht|exact Hw].
    unfold converted. simpl. by rewrite lookup_insert_ne.
  - unfold converted. simpl. by rewrite insert_insert_eq.
Qed.

(** C9. With both sizes given and one of them 0, [convert] behaves as
    if none was given: it runs the very same steps, never calls
    [resize], and on a readable image and a writable path returns with
    the source image written at its own size. *)
Theorem zero_size_skips_resize inpath outpath w h σ :
  (w = 0 ∨ h = 0)%Z →
  convert inpath outpath (Some w) (Some h) σ
  = convert inpath outpath None None σ ∧
  ∀ data src,
    files σ !! inpath = Some data →
    PIL.open_RGB data = Some src →
    writable σ outpath = true →
    ∃ σ' out,
      convert inpath outpath (Some w) (Some h) σ = (Normal tt, σ') ∧
      files σ' !! outpath = Some out ∧
      out = concat (map xrgb8888 (row_major src)) ∧
      length out = PIL.width src * PIL.height src * 4 ∧
      calls σ' = calls σ ++ [CallImageOpen inpath; CallOpenWb outpath].
Proof.
  intros Hz.
  assert (Builtins.truthy (Some w) && Builtins.truthy (Some h) = false) as Hc.
  { destruct Hz as [-> | ->]; simpl; [done|]. apply andb_false_r. }
  assert (convert inpath outpath (Some w) (Some h) σ
          = convert inpath outpath None None σ) as Heq.
  { unfold convert. by rewrite Hc. }
  split; [exact Heq|].
  intros data src Hf Ho Hw. rewrite Heq.
  eexists _, _. split.
  - by apply (convert_returns _ _ None None σ data src src).
  - unfold converted. simpl. rewrite lookup_insert_eq.
    split; [done|]. split; [done|]. split; [|done].
    pose proof (render_mode_RGB src (PIL.open_RGB_mode _ _ Ho)) as Hr.
    by apply render_length in Hr.
Qed.
End Relations.

(** ** Exit statuses and arguments *)

Section CommandLine.
Context `{PIL.Library} `{Builtins.Python}.
Import Py.

(** What the script does when fewer than two positional arguments are
    given (C5): the status is 1, the usage line goes to standard
    output, and standard error, the files and the outside calls are as
    they were. *)
Theorem usage_exit σ prog rest :
  pillow σ = true →
  sys_argv σ = prog :: rest →
  length rest < 2 →
  python3 σ = (1%Z, with_stdout (stdout σ ++ [usage_message prog]) σ) ∧
  stderr (snd (python3 σ)) = stderr σ ∧
  files (snd (python3 σ)) = files σ ∧
  calls (snd (python3 σ)) = calls σ.
Proof.
  intros Hp Ha Hl. unfold python3.
  by rewrite (script_with_pillow σ Hp), (main_usage σ prog rest Ha Hl).
Qed.

(** C6. Without Pillow the script prints one error line on standard
    error and exits with status 1; nothing else has happened by then:
    no output on standard output, no file touched, no outside call. *)
Theorem missing_pillow_exits σ :
  pillow σ = false →
  python3 σ = (1%Z, with_stderr (stderr σ ++ [pillow_message]) σ) ∧
  stdout (snd (python3 σ)) = stdout σ ∧
  files (snd (python3 σ)) = files σ ∧
  calls (snd (python3 σ)) = calls σ.
Proof.
  intros Hp. unfold python3. by rewrite (script_without_pillow σ Hp).
Qed.

(** C10. With all four positional arguments present, a width or height
    that is no integer for the interpreter, that is, one on which
    [int] raises [ValueError], ends the run with that exception
    uncaught: status 1, the traceback on standard error, and [convert]
    never called, so no file is created or changed.  [int] is the
    interpreter's own, whatever strings it reads. *)
Theorem bad_size_argument_raises σ prog inpath outpath ws hs rest :
  pillow σ = true →
  sys_argv σ = prog :: inpath :: outpath :: ws :: hs :: rest →
  Builtins.int ws = None ∨ Builtins.int hs = None →
  raw_convert_py σ = (Raise ValueError, σ) ∧
  fst (python3 σ) = 1%Z ∧
  files (snd (python3 σ)) = files σ ∧
  calls (snd (python3 σ)) = calls σ ∧
  stdout (snd (python3 σ)) = stdout σ ∧
  stderr (snd (python3 σ))
  = stderr σ ++ ["Traceback (most recent call last): ValueError"].
Proof.
  intros Hp Ha Hbad.
  assert (raw_convert_py σ = (Raise ValueError, σ)) as Hr.
  { rewrite (script_with_pillow σ Hp), (main_sized σ _ _ _ _ _ _ Ha).
    destruct Hbad as [-> | ->]; [done|].
    by destruct (Builtins.int ws). }
  unfold python3. by rewrite Hr.
Qed.
End CommandLine.

(** ** Runs on concrete inputs

    The script run against the concrete library [tiny], on small files. *)

(** A 2x2 image, every pixel (255, 0, 0). *)
Definition red_2x2 : list byte :=
  [x02; x02; xff; x00; x00; xff; x00; x00; xff; x00; x00; xff; x00; x00].

(** A 1x1 image with the pixel (0x12, 0x34, 0x56). *)
Definition one_pixel : list byte := [x01; x01; x12; x34; x56].

(** A 2x1 image: (1, 2, 3) then (4, 5, 6). *)
Definition two_pixels : list byte := [x02; x01; x01; x02; x03; x04; x05; x06].

(** A process started with [argv], Pillow installed, one file "in.img"
    holding [data], every path writable, nothing printed yet. *)
Definition started (argv : list string) (data : list byte) : Py.world :=
  Py.World argv true {["in.img" := data]} (λ _, true) [] [] [].

(** The same without Pillow. *)
Definition started_bare (argv : list string) (data : list byte) : Py.world :=
  Py.World argv false {["in.img" := data]} (λ _, true) [] [] [].

Section Examples.
Import Py.
#[local] Existing Instance tiny.
#[local] Existing Instance ascii_numbers.

Example run_red_2x2 :
  let '(status, σ) :=
    python3 (started ["raw_convert.py"; "in.img"; "out.raw"] red_2x2) in
  status = 0%Z ∧
  files σ !! "out.raw"
  = Some [x00; x00; xff; x00; x00; x00; xff; x00;
          x00; x00; xff; x00; x00; x00; xff; x00] ∧
  stdout σ = ["변환 완료: 2x2 → out.raw (16 bytes)"].
Proof. vm_compute. done. Qed.

Example run_resized :
  let '(status, σ) :=
    python3 (started ["raw_convert.py"; "in.img"; "out.raw"; "1"; "3"] two_pixels) in
  status = 0%Z ∧
  files σ !! "out.raw"
  = Some [x03; x02; x01; x00; x03; x02; x01; x00; x03; x02; x01; x00] ∧
  calls σ = [CallImageOpen "in.img"; CallResize 1 3; CallOpenWb "out.raw"].
Proof. vm_compute. done. Qed.
End Examples.

Section Witnesses.
Import Py.
#[local] Existing Instance tiny.
#[local] Existing Instance ascii_numbers.

(** C1 on the 1x1 file: the output has four bytes. *)
Lemma convert_output_length_witness :
  ∃ out,
    files (snd (convert "in.img" "out.raw" None None (started [] one_pixel)))
      !! "out.raw" = Some out ∧
    length out = 4.
Proof.
  assert (convert "in.img" "out.raw" None None (started [] one_pixel)
          = (Normal tt,
             snd (convert "in.img" "out.raw" None None (started [] one_pixel))))
    as Hrun by (vm_compute; reflexivity).
  destruct (convert_output_length _ _ _ _ _ _ Hrun)
    as (data & src & img & out & Hf & Ho & Ht & Hout & _ & Hone).
  exists out. split; [exact Hout|]. apply Hone.
  vm_compute in Hf. injection Hf as <-.
  vm_compute in Ho. injection Ho as <-.
  injection Ht as <-. reflexivity.
Defined.

(** C3 on the 2x1 file: pixel (1, 0) fills bytes 4 to 8. *)
Lemma convert_row_major_witness :
  ∃ data src img out,
    files (started [] two_pixels) !! "in.img" = Some data ∧
    PIL.open_RGB data = Some src ∧
    target src None None = Some img ∧
    files (snd (convert "in.img" "out.raw" None None (started [] two_pixels)))
      !! "out.raw" = Some out ∧
    ∀ x y, x < PIL.width img → y < PIL.height img →
      4 * (y * PIL.width img + x) + 4 ≤ length out ∧
      take 4 (drop (4 * (y * PIL.width img + x)) out)
      = xrgb8888 (PIL.load img x y) ∧
      Struct.pack_I (word_of (PIL.load img x y))
      = Some (take 4 (drop (4 * (y * PIL.width img + x)) out)).
Proof.
  apply (convert_row_major "in.img" "out.raw" None None
           (started [] two_pixels)).
  vm_compute. reflexivity.
Defined.

(** C7 on the 2x1 file. *)
Lemma raw_round_trip_witness :
  ∃ data src img out ws,
    files (started [] two_pixels) !! "in.img" = Some data ∧
    PIL.open_RGB data = Some src ∧
    target src None None = Some img ∧
    files (snd (convert "in.img" "out.raw" None None (started [] two_pixels)))
      !! "out.raw" = Some out ∧
    length out = 4 * (PIL.width img * PIL.height img) ∧
    read_words (PIL.width img * PIL.height img) out = Some ws ∧
    map pixel_of_word ws = row_major img ∧
    Forall (λ v, Z.shiftr v 24 = 0%Z) ws ∧
    ∀ x y, x < PIL.width img → y < PIL.height img →
      ∃ v, ws !! (y * PIL.width img + x) = Some v ∧
           pixel_of_word v = PIL.load img x y ∧
           out !! (4 * (y * PIL.width img + x) + 3) = Some x00.
Proof.
  apply (raw_round_trip "in.img" "out.raw" None None (started [] two_pixels)).
  vm_compute. reflexivity.
Defined.

(** C8: a fresh process and one that has already printed and holds
    another file, resizing the same input to 3x2. *)
Lemma convert_deterministic_witness :
  let σ1 := started [] two_pixels in
  let σ2 := World ["x"] true
              (<["in.img" := two_pixels]> {["out.raw" := [x01]]})
              (λ _, true) ["earlier"] [] [] in
  fst (convert "in.img" "out.raw" (Some 3%Z) (Some 2%Z) σ1)
  = fst (convert "in.img" "out.raw" (Some 3%Z) (Some 2%Z) σ2) ∧
  (fst (convert "in.img" "out.raw" (Some 3%Z) (Some 2%Z) σ1) = Normal tt →
   is_Some (files (snd (convert "in.img" "out.raw" (Some 3%Z) (Some 2%Z) σ1))
              !! "out.raw") ∧
   files (snd (convert "in.img" "out.raw" (Some 3%Z) (Some 2%Z) σ1)) !! "out.raw"
   = files (snd (convert "in.img" "out.raw" (Some 3%Z) (Some 2%Z) σ2)) !! "out.raw").
Proof.
  apply convert_deterministic; vm_compute; reflexivity.
Defined.

(** C9 with width 0 and height 5 on the 2x2 red file. *)
Lemma zero_size_skips_resize_witness :
  convert "in.img" "out.raw" (Some 0%Z) (Some 5%Z) (started [] red_2x2)
  = convert "in.img" "out.raw" None None (started [] red_2x2) ∧
  ∀ data src,
    files (started [] red_2x2) !! "in.img" = Some data →
    PIL.open_RGB data = Some src →
    writable (started [] red_2x2) "out.raw" = true →
    ∃ σ' out,
      convert "in.img" "out.raw" (Some 0%Z) (Some 5%Z) (started [] red_2x2)
      = (Normal tt, σ') ∧
      files σ' !! "out.raw" = Some out ∧
      out = concat (map xrgb8888 (row_major src)) ∧
      length out = PIL.width src * PIL.height src * 4 ∧
      calls σ' = calls (started [] red_2x2)
                 ++ [CallImageOpen "in.img"; CallOpenWb "out.raw"].
Proof.
  apply zero_size_skips_resize. left. reflexivity.
Defined.

(** C5 at the failing input, one positional argument: status 1, the
    usage line on standard output, standard error empty. *)
Lemma usage_exit_witness :
  python3 (started ["raw_convert.py"; "in.img"] red_2x2)
  = (1%Z,
     with_stdout ["사용법: raw_convert.py input.png output.raw [width height]"]
       (started ["raw_convert.py"; "in.img"] red_2x2)) ∧
  stderr (snd (python3 (started ["raw_convert.py"; "in.img"] red_2x2))) = [] ∧
  files (snd (python3 (started ["raw_convert.py"; "in.img"] red_2x2)))
  = {["in.img" := red_2x2]} ∧
  calls (snd (python3 (started ["raw_convert.py"; "in.img"] red_2x2))) = [].
Proof.
  apply (usage_exit (started ["raw_convert.py"; "in.img"] red_2x2)
           "raw_convert.py" ["in.img"]).
  - reflexivity.
  - reflexivity.
  - simpl. lia.
Defined.

(** C6 on a process without Pillow. *)
Lemma missing_pillow_exits_witness :
  python3 (started_bare ["raw_convert.py"; "in.img"; "out.raw"] red_2x2)
  = (1%Z,
     with_stderr ["ERROR: Pillow 필요 — pip install Pillow"]
       (started_bare ["raw_convert.py"; "in.img"; "out.raw"] red_2x2)) ∧
  stdout (snd (python3 (started_bare ["raw_convert.py"; "in.img"; "out.raw"] red_2x2)))
  = [] ∧
  files (snd (python3 (started_bare ["raw_convert.py"; "in.img"; "out.raw"] red_2x2)))
  = {["in.img" := red_2x2]} ∧
  calls (snd (python3 (started_bare ["raw_convert.py"; "in.img"; "out.raw"] red_2x2)))
  = [].
Proof.
  apply (missing_pillow_exits
           (started_bare ["raw_convert.py"; "in.img"; "out.raw"] red_2x2)).
  reflexivity.
Defined.

(** C10 with the height "x". *)
Lemma bad_size_argument_raises_witness :
  let σ := started ["raw_convert.py"; "in.img"; "out.raw"; "640"; "x"] red_2x2 in
  raw_convert_py σ = (Raise ValueError, σ) ∧
  fst (python3 σ) = 1%Z ∧
  files (snd (python3 σ)) = files σ ∧
  calls (snd (python3 σ)) = calls σ ∧
  stdout (snd (python3 σ)) = stdout σ ∧
  stderr (snd (python3 σ))
  = stderr σ ++ ["Traceback (most recent call last): ValueError"].
Proof.
  apply (bad_size_argument_raises
           (started ["raw_convert.py"; "in.img"; "out.raw"; "640"; "x"] red_2x2)
           "raw_convert.py" "in.img" "out.raw" "640" "x" []).
  - reflexivity.
  - reflexivity.
  - right. vm_compute. reflexivity.
Defined.
End Witnesses.


(** ** Further properties of [convert]

    How a call of [convert] can end, what it leaves behind when it fails,
    and what a successful call touches. *)

Section Outcomes.
Context `{PIL.Library}.
Import Py.

(** With Pillow's guarantee on mode RGB, packing never fails, so every
    call ends in one of five ways. *)
Lemma convert_outcome inpath outpath width height σ :
  convert inpath outpath width height σ
  = match files σ !! inpath with
    | None => (Raise FileNotFoundError, logged (CallImageOpen inpath) σ)
    | Some data =>
        match PIL.open_RGB data with
        | None => (Raise UnidentifiedImageError, logged (CallImageOpen inpath) σ)
        | Some src =>
            match target src width height with
            | None =>
                (Raise ValueError,
                 with_calls (calls σ ++ CallImageOpen inpath
                               :: resize_calls width height) σ)
            | Some img =>
                if writable σ outpath
                then (Normal tt,
                      converted inpath outpath width height img
                        (concat (map xrgb8888 (row_major img))) σ)
                else (Raise OSError,
                      with_calls (calls σ ++ CallImageOpen inpath
                                    :: resize_calls width height
                                    ++ [CallOpenWb outpath]) σ)
            end
        end
    end.
Proof.
  pose proof (convert_cases inpath outpath width height σ) as Hc.
  destruct (files σ !! inpath) as [data|]; [|done].
  destruct (PIL.open_RGB data) as [src|] eqn:Ho; [|done].
  destruct (target src width height) as [img|] eqn:Ht; [|done].
  assert (PIL.mode_RGB img) as Hm.
  { eapply target_mode; [|exact Ht]. by eapply PIL.open_RGB_mode. }
  rewrite (render_mode_RGB img Hm) in Hc.
  by destruct (writable σ outpath).
Qed.

(** X1. The failures that come first leave nothing behind: when the
    input file is missing, or Pillow cannot decode it, or the resize
    raises, or the output cannot be opened for writing, [convert] raises
    and every file is as it was before the call, with nothing printed
    on standard output. *)
Theorem convert_fails_before_writing inpath outpath width height σ :
  (files σ !! inpath = None ∨
   (∃ data, files σ !! inpath = Some data ∧ PIL.open_RGB data = None) ∨
   (∃ data src, files σ !! inpath = Some data ∧
                PIL.open_RGB data = Some src ∧
                target src width height = None) ∨
   writable σ outpath = false) →
  ∃ e σ',
    convert inpath outpath width height σ = (Raise e, σ') ∧
    files σ' = files σ ∧ stdout σ' = stdout σ.
Proof.
  intros Hcause. rewrite convert_outcome.
  destruct (files σ !! inpath) as [data|] eqn:Hf; [|by eexists _, _].
  destruct (PIL.open_RGB data) as [src|] eqn:Ho; [|by eexists _, _].
  destruct (target src width height) as [img|] eqn:Ht; [|by eexists _, _].
  destruct (writable σ outpath) eqn:Hw; [|by eexists _, _].
  destruct Hcause as [?|[(d & [= <-] & ?)|[(d & s' & [= <-] & Ho' & Ht')|?]]];
    try congruence.
Qed.

(** X4. Converting a file onto itself works: the image is decoded in
    full before the output is opened, so with [inpath = outpath] the call
    returns and the file then holds the raw pixels of the image it held
    before. *)
Theorem convert_in_place path width height σ data src img :
  files σ !! path = Some data →
  PIL.open_RGB data = Some src →
  target src width height = Some img →
  writable σ path = true →
  ∃ σ', convert path path width height σ = (Normal tt, σ') ∧
        files σ' !! path = Some (concat (map xrgb8888 (row_major img))) ∧
        ∀ p, p ≠ path → files σ' !! p = files σ !! p.
Proof.
  intros Hf Ho Ht Hw. eexists. split; [by eapply convert_returns|].
  unfold converted. simpl. split; [apply lookup_insert_eq|].
  intros p Hp. by rewrite lookup_insert_ne.
Qed.

(** X5. The one line [convert] prints on success tells the truth: its
    width and height are those of the image written and its byte count
    is the length of the file at [outpath]. *)
Theorem convert_reports_length inpath outpath width height σ σ' :
  convert inpath outpath width height σ = (Normal tt, σ') →
  ∃ data src img out,
    files σ !! inpath = Some data ∧
    PIL.open_RGB data = Some src ∧
    target src width height = Some img ∧
    files σ' !! outpath = Some out ∧
    stdout σ'
    = stdout σ ++ ["변환 완료: " +:+ pretty (PIL.width img) +:+ "x"
                     +:+ pretty (PIL.height img) +:+ " → " +:+ outpath
                     +:+ " (" +:+ pretty (length out) +:+ " bytes)"].
Proof.
  intros (data & src & img & out & Hf & Ho & Ht & Hw & Hr & ->)%convert_inv.
  exists data, src, img, out. do 3 (split; [done|]).
  split; [unfold converted; simpl; apply lookup_insert_eq|].
  unfold converted, done_message. simpl.
  by rewrite (render_length img out Hr).
Qed.
End Outcomes.

(** ** Sizes, arguments and exit statuses, in full *)

Section Arguments.
Context `{PIL.Library} `{Builtins.Python}.
Import Py.

Lemma resize_calls_elem width height w h :
  CallResize w h ∈ resize_calls width height ↔
  width = Some w ∧ height = Some h ∧ w ≠ 0%Z ∧ h ≠ 0%Z.
Proof.
  unfold resize_calls.
  destruct width as [w'|], height as [h'|]; simpl;
    try (rewrite ?andb_false_r; split;
         [intros Hin; by apply elem_of_nil in Hin | intros (? & ? & _); done]).
  destruct (Z.eqb_spec w' 0) as [-> | Hw], (Z.eqb_spec h' 0) as [-> | Hh]; simpl.
  - split; [intros Hin; by apply elem_of_nil in Hin | intros ([= <-] & _ & ? & _); done].
  - split; [intros Hin; by apply elem_of_nil in Hin | intros ([= <-] & _ & ? & _); done].
  - split; [intros Hin; by apply elem_of_nil in Hin | intros (_ & [= <-] & _ & ?); done].
  - rewrite list_elem_of_singleton. split.
    + by intros [= -> ->].
    + by intros ([= ->] & [= ->] & _).
Qed.

(** X6. On a readable image, [convert] calls [resize] exactly when both
    sizes are given and both are non-zero, and then with exactly these
    two numbers; whether the call goes on to succeed does not matter.
    In every other case (a size left out, or equal to 0) the call runs
    exactly as one without sizes. *)
Theorem convert_resize_call_iff inpath outpath width height σ :
  (∀ data src,
     files σ !! inpath = Some data →
     PIL.open_RGB data = Some src →
     ∃ new,
       calls (snd (convert inpath outpath width height σ)) = calls σ ++ new ∧
       ∀ w h, CallResize w h ∈ new ↔
              width = Some w ∧ height = Some h ∧ w ≠ 0%Z ∧ h ≠ 0%Z) ∧
  ((¬ ∃ w h, width = Some w ∧ height = Some h ∧ w ≠ 0%Z ∧ h ≠ 0%Z) →
   convert inpath outpath width height σ
   = convert inpath outpath None None σ).
Proof.
  split.
  - intros data src Hf Ho. rewrite convert_outcome, Hf, Ho.
    assert (∀ (tl : list call) w h,
              (∀ w' h', CallResize w' h' ∉ tl) →
              CallResize w h ∈ CallImageOpen inpath :: resize_calls width height ++ tl
              ↔ width = Some w ∧ height = Some h ∧ w ≠ 0%Z ∧ h ≠ 0%Z) as Hmem.
    { intros tl w h Htl. rewrite elem_of_cons, elem_of_app, resize_calls_elem.
      split; [|by auto].
      intros [?|[?|Hin]]; [done|done|]. by apply Htl in Hin. }
    destruct (target src width height) as [img|].
    + destruct (writable σ outpath); simpl.
      * eexists. split; [done|]. intros w h. apply Hmem.
        intros w' h' Hin. apply list_elem_of_singleton in Hin. done.
      * eexists. split; [done|]. intros w h. apply Hmem.
        intros w' h' Hin. apply list_elem_of_singleton in Hin. done.
    + simpl. eexists. split; [done|]. intros w h.
      rewrite <- (app_nil_r (resize_calls width height)). apply Hmem.
      intros w' h' Hin. by apply elem_of_nil in Hin.
  - intros Hnone.
    assert (Builtins.truthy width && Builtins.truthy height = false) as Hc.
    { destruct width as [w|], height as [h|]; simpl; try done;
        rewrite ?andb_false_r; try done.
      destruct (Z.eqb_spec w 0); [done|]. destruct (Z.eqb_spec h 0); [done|].
      exfalso. apply Hnone. by exists w, h. }
    unfold convert. by rewrite Hc.
Qed.

(** X7. The script does not check the sign of a size: with both sizes
    non-zero and one of them negative, [convert] hands them to [resize]
    as they are; no image can have such a size, so the call ends in
    ValueError, after the resize call and before the output is opened. *)
Theorem negative_size_reaches_resize inpath outpath w h σ data src :
  files σ !! inpath = Some data →
  PIL.open_RGB data = Some src →
  w ≠ 0%Z → h ≠ 0%Z → (w < 0 ∨ h < 0)%Z →
  convert inpath outpath (Some w) (Some h) σ
  = (Raise ValueError,
     with_calls (calls σ ++ [CallImageOpen inpath; CallResize w h]) σ).
Proof.
  intros Hf Ho Hw Hh Hneg. rewrite convert_outcome, Hf, Ho.
  unfold target, resize_calls. simpl.
  destruct (Z.eqb_spec w 0); [done|]. destruct (Z.eqb_spec h 0); [done|]. simpl.
  destruct (PIL.resize src w h) as [img|] eqn:Hr; [|done].
  apply PIL.resize_size in Hr as [Hrw Hrh]. lia.
Qed.

(** X8. How the command line maps to [convert], with Pillow present:
    with two or three positional arguments the script runs
    [convert(input, output)] without sizes, and a third argument is not
    even parsed, whatever its text; with four or more, when [int] reads
    the third and the fourth, it runs
    [convert(input, output, int(a3), int(a4))], and arguments after the
    fourth are ignored.  [int] is the interpreter's own. *)
Theorem script_dispatch σ :
  pillow σ = true →
  (∀ prog inpath outpath rest,
     sys_argv σ = prog :: inpath :: outpath :: rest → length rest < 2 →
     raw_convert_py σ = convert inpath outpath None None σ) ∧
  (∀ prog inpath outpath ws hs rest w h,
     sys_argv σ = prog :: inpath :: outpath :: ws :: hs :: rest →
     Builtins.int ws = Some w → Builtins.int hs = Some h →
     raw_convert_py σ = convert inpath outpath (Some w) (Some h) σ).
Proof.
  intros Hp. split.
  - intros prog inpath outpath rest Ha Hl.
    by rewrite (script_with_pillow σ Hp), (main_plain σ _ _ _ _ Ha Hl).
  - intros prog inpath outpath ws hs rest w h Ha Hws Hhs.
    by rewrite (script_with_pillow σ Hp), (main_sized σ _ _ _ _ _ _ Ha), Hws, Hhs.
Qed.

End Arguments.

(** ** The file determines the pixels *)

Section Lossless.
Context `{PIL.Library}.
Import Py.

Lemma xrgb8888_inj p q :
  PIL.rgb_ok p → PIL.rgb_ok q → xrgb8888 p = xrgb8888 q → p = q.
Proof.
  intros Hp Hq Heq.
  pose proof (unpack_xrgb8888 p Hp) as Hup.
  pose proof (unpack_xrgb8888 q Hq) as Huq.
  rewrite Heq, Huq in Hup. injection Hup as Hw.
  rewrite <- (pixel_of_word_of p Hp), <- (pixel_of_word_of q Hq).
  by rewrite Hw.
Qed.

(** X12. Nothing of an RGB image is lost: when two successful calls of
    [convert] leave the same bytes and the images they wrote have the
    same size, the two images agree at every pixel. *)
Theorem convert_lossless in1 out1 w1 h1 σ1 σ1' in2 out2 w2 h2 σ2 σ2' :
  convert in1 out1 w1 h1 σ1 = (Normal tt, σ1') →
  convert in2 out2 w2 h2 σ2 = (Normal tt, σ2') →
  files σ1' !! out1 = files σ2' !! out2 →
  ∃ data1 src1 img1 data2 src2 img2,
    files σ1 !! in1 = Some data1 ∧ PIL.open_RGB data1 = Some src1 ∧
    target src1 w1 h1 = Some img1 ∧
    files σ2 !! in2 = Some data2 ∧ PIL.open_RGB data2 = Some src2 ∧
    target src2 w2 h2 = Some img2 ∧
    (PIL.size img1 = PIL.size img2 →
     ∀ x y, x < PIL.width img1 → y < PIL.height img1 →
            PIL.load img1 x y = PIL.load img2 x y).
Proof.
  intros (data1 & src1 & img1 & Hf1 & Ho1 & Ht1 & Hm1 & _ & ->)%convert_inv_mode.
  intros (data2 & src2 & img2 & Hf2 & Ho2 & Ht2 & Hm2 & _ & ->)%convert_inv_mode.
  unfold converted. simpl. rewrite !lookup_insert_eq. intros [= Hout].
  exists data1, src1, img1, data2, src2, img2. do 6 (split; [done|]).
  intros Hs x y Hx Hy.
  assert (PIL.width img2 = PIL.width img1) as Hw
    by (unfold PIL.width; by rewrite Hs).
  assert (PIL.height img2 = PIL.height img1) as Hh
    by (unfold PIL.height; by rewrite Hs).
  apply xrgb8888_inj; [by apply Hm1|apply Hm2; lia|].
  rewrite <- (xrgb8888_slice img1 x y Hx Hy).
  rewrite <- (xrgb8888_slice img2 x y) by lia.
  by rewrite Hout, Hw.
Qed.
End Lossless.

(** ** Resizing from the command line *)

Section Resizing.
Context `{PIL.Library} `{Builtins.Python}.
Import Py.

(** The status and the calls of a run that reaches [convert] on a
    readable input. *)
Lemma python3_reaches_convert σ inpath outpath width height data src :
  raw_convert_py σ = convert inpath outpath width height σ →
  files σ !! inpath = Some data →
  PIL.open_RGB data = Some src →
  (∃ tl, calls (snd (python3 σ))
         = calls σ ++ CallImageOpen inpath :: resize_calls width height ++ tl ∧
         ∀ w h, CallResize w h ∉ tl) ∧
  (∀ img, target src width height = Some img →
          writable σ outpath = true →
          python3 σ
          = (0%Z, converted inpath outpath width height img
                    (concat (map xrgb8888 (row_major img))) σ)).
Proof.
  intros Hrun Hf Ho. unfold python3. rewrite Hrun, convert_outcome, Hf, Ho.
  destruct (target src width height) as [img|].
  - destruct (writable σ outpath); simpl.
    + split; [|by intros ? [= <-] _].
      exists [CallOpenWb outpath]. split; [done|].
      intros w h Hin. by apply list_elem_of_singleton in Hin.
    + split; [|by intros ? _ [=]].
      exists [CallOpenWb outpath]. split; [done|].
      intros w h Hin. by apply list_elem_of_singleton in Hin.
  - simpl. split; [|by intros ? [=]].
    exists []. rewrite app_nil_r. split; [done|].
    intros w h Hin. by apply elem_of_nil in Hin.
Qed.

Lemma resize_in_calls inpath width height (tl : list call) w h :
  (∀ w' h', CallResize w' h' ∉ tl) →
  CallResize w h ∈ CallImageOpen inpath :: resize_calls width height ++ tl ↔
  width = Some w ∧ height = Some h ∧ w ≠ 0%Z ∧ h ≠ 0%Z.
Proof.
  intros Htl. rewrite elem_of_cons, elem_of_app, resize_calls_elem.
  split; [|by auto].
  intros [?|[?|Hin]]; [done|done|]. by apply Htl in Hin.
Qed.

(** C4. On a readable input, with sizes that are positive integers
    whenever both are supplied: [resize] is called iff more than four
    [argv] entries are present, and then with [int(argv[3])] and
    [int(argv[4])], in this order.  With at most four entries (such as
    input, output and a width alone) the file written is the source
    image at its own size.  When the resize is made and succeeds, the
    file written is the resized image, whose width and height are
    exactly the two numbers asked for: [w * h] words, no more, no less. *)
Theorem resize_iff_four_arguments σ prog inpath outpath rest data src :
  pillow σ = true →
  sys_argv σ = prog :: inpath :: outpath :: rest →
  files σ !! inpath = Some data →
  PIL.open_RGB data = Some src →
  (∀ ws hs, sys_argv σ !! 3 = Some ws → sys_argv σ !! 4 = Some hs →
     ∃ w h, Builtins.int ws = Some w ∧ Builtins.int hs = Some h ∧
            (0 < w)%Z ∧ (0 < h)%Z) →
  ∃ new,
    calls (snd (python3 σ)) = calls σ ++ new ∧
    ((∃ w h, CallResize w h ∈ new) ↔ 4 < length (sys_argv σ)) ∧
    (∀ w h, CallResize w h ∈ new ↔
       ∃ ws hs, sys_argv σ !! 3 = Some ws ∧ sys_argv σ !! 4 = Some hs ∧
                Builtins.int ws = Some w ∧ Builtins.int hs = Some h) ∧
    (length (sys_argv σ) ≤ 4 → writable σ outpath = true →
     fst (python3 σ) = 0%Z ∧
     files (snd (python3 σ)) !! outpath
     = Some (concat (map xrgb8888 (row_major src))) ∧
     length (concat (map xrgb8888 (row_major src)))
     = PIL.width src * PIL.height src * 4) ∧
    (∀ w h img,
       CallResize w h ∈ new →
       PIL.resize src w h = Some img →
       writable σ outpath = true →
       fst (python3 σ) = 0%Z ∧
       files (snd (python3 σ)) !! outpath
       = Some (concat (map xrgb8888 (row_major img))) ∧
       PIL.size img = (Z.to_nat w, Z.to_nat h) ∧
       length (concat (map xrgb8888 (row_major img)))
       = Z.to_nat w * Z.to_nat h * 4).
Proof.
  intros Hp Ha Hf Ho Hpos.
  assert (∀ img, PIL.mode_RGB img →
            length (concat (map xrgb8888 (row_major img)))
            = PIL.width img * PIL.height img * 4) as Hlen.
  { intros img Hm. apply render_length. by apply render_mode_RGB. }
  destruct rest as [|ws [|hs rest]].
  - (* input and output only *)
    assert (raw_convert_py σ = convert inpath outpath None None σ) as Hrun.
    { rewrite (script_with_pillow σ Hp).
      apply (main_plain σ prog inpath outpath [] Ha). simpl. lia. }
    destruct (python3_reaches_convert σ _ _ _ _ data src Hrun Hf Ho)
      as [(tl & Hcalls & Htl) Hok].
    eexists. split; [exact Hcalls|]. rewrite Ha.
    split; [|split; [|split]].
    + split; [|simpl; lia].
      intros (w & h & Hin). apply resize_in_calls in Hin; [|done].
      by destruct Hin as [[=] _].
    + intros w h. rewrite resize_in_calls by done. split.
      * by intros [[=] _].
      * by intros (ws & hs & [=] & _).
    + intros _ Hw. rewrite (Hok src eq_refl Hw). simpl.
      rewrite lookup_insert_eq. split; [done|]. split; [done|].
      apply Hlen. by eapply PIL.open_RGB_mode.
    + intros w h img Hin. apply resize_in_calls in Hin; [|done].
      by destruct Hin as [[=] _].
  - (* input, output and a width alone *)
    assert (raw_convert_py σ = convert inpath outpath None None σ) as Hrun.
    { rewrite (script_with_pillow σ Hp).
      apply (main_plain σ prog inpath outpath [ws] Ha). simpl. lia. }
    destruct (python3_reaches_convert σ _ _ _ _ data src Hrun Hf Ho)
      as [(tl & Hcalls & Htl) Hok].
    eexists. split; [exact Hcalls|]. rewrite Ha.
    split; [|split; [|split]].
    + split; [|simpl; lia].
      intros (w & h & Hin). apply resize_in_calls in Hin; [|done].
      by destruct Hin as [[=] _].
    + intros w h. rewrite resize_in_calls by done. split.
      * by intros [[=] _].
      * by intros (ws' & hs' & _ & [=] & _).
    + intros _ Hw. rewrite (Hok src eq_refl Hw). simpl.
      rewrite lookup_insert_eq. split; [done|]. split; [done|].
      apply Hlen. by eapply PIL.open_RGB_mode.
    + intros w h img Hin. apply resize_in_calls in Hin; [|done].
      by destruct Hin as [[=] _].
  - (* all four positions filled *)
    destruct (Hpos ws hs) as (w & h & Hws & Hhs & Hw0 & Hh0);
      [by rewrite Ha|by rewrite Ha|].
    assert (raw_convert_py σ = convert inpath outpath (Some w) (Some h) σ) as Hrun.
    { by rewrite (script_with_pillow σ Hp), (main_sized σ _ _ _ _ _ _ Ha), Hws, Hhs. }
    destruct (python3_reaches_convert σ _ _ _ _ data src Hrun Hf Ho)
      as [(tl & Hcalls & Htl) Hok].
    eexists. split; [exact Hcalls|]. rewrite Ha.
    split; [|split; [|split]].
    + split; [intros _; simpl; lia|]. intros _. exists w, h.
      apply resize_in_calls; [done|]. repeat split; [lia|lia].
    + intros w' h'. rewrite resize_in_calls by done. simpl. split.
      * intros ([= <-] & [= <-] & _). by exists ws, hs.
      * intros (ws' & hs' & [= <-] & [= <-] & Hw' & Hh').
        rewrite Hws in Hw'. rewrite Hhs in Hh'.
        injection Hw' as <-. injection Hh' as <-.
        repeat split; [lia|lia].
    + simpl. lia.
    + intros w' h' img Hin Hr Hwr. apply resize_in_calls in Hin; [|done].
      destruct Hin as ([= <-] & [= <-] & _).
      assert (target src (Some w) (Some h) = Some img) as Ht.
      { unfold target. simpl.
        destruct (Z.eqb_spec w 0); [lia|]. destruct (Z.eqb_spec h 0); [lia|].
        done. }
      rewrite (Hok img Ht Hwr). simpl. rewrite lookup_insert_eq.
      apply PIL.resize_size in Hr as Hsz. destruct Hsz as [Hiw Hih].
      assert (PIL.mode_RGB img) as Hm.
      { eapply PIL.resize_mode; [|exact Hr]. by eapply PIL.open_RGB_mode. }
      assert (PIL.width img = Z.to_nat w) as Hiw' by lia.
      assert (PIL.height img = Z.to_nat h) as Hih' by lia.
      split; [done|]. split; [done|]. split.
      * unfold PIL.width, PIL.height in Hiw', Hih'.
        destruct (PIL.size img) as [a b]. simpl in *. by subst.
      * by rewrite (Hlen img Hm), Hiw', Hih'.
Qed.
End Resizing.

Section FurtherWitnesses.
Import Py.
#[local] Existing Instance tiny.
#[local] Existing Instance ascii_numbers.

(** X1 on a missing input file, with an output file already there. *)
Lemma convert_fails_before_writing_witness :
  ∃ e σ',
    convert "absent.png" "in.img" None None (started [] red_2x2) = (Raise e, σ') ∧
    files σ' = files (started [] red_2x2) ∧
    stdout σ' = stdout (started [] red_2x2).
Proof.
  apply (convert_fails_before_writing "absent.png" "in.img" None None
           (started [] red_2x2)).
  left. reflexivity.
Defined.

(** X4: the 1x1 file converted onto itself. *)
Lemma convert_in_place_witness :
  ∃ σ', convert "in.img" "in.img" None None (started [] one_pixel)
        = (Normal tt, σ') ∧
        files σ' !! "in.img" = Some [x56; x34; x12; x00] ∧
        ∀ p, p ≠ "in.img" → files σ' !! p = files (started [] one_pixel) !! p.
Proof.
  apply (convert_in_place "in.img" None None (started [] one_pixel) one_pixel
           {| PIL.size := (1, 1); PIL.load := Tiny.pixel_at 1 [x12; x34; x56] |}
           {| PIL.size := (1, 1); PIL.load := Tiny.pixel_at 1 [x12; x34; x56] |});
    reflexivity.
Defined.

(** X5 on the 2x1 file. *)
Lemma convert_reports_length_witness :
  ∃ data src img out,
    files (started [] two_pixels) !! "in.img" = Some data ∧
    PIL.open_RGB data = Some src ∧
    target src None None = Some img ∧
    files (snd (convert "in.img" "out.raw" None None (started [] two_pixels)))
      !! "out.raw" = Some out ∧
    stdout (snd (convert "in.img" "out.raw" None None (started [] two_pixels)))
    = stdout (started [] two_pixels)
      ++ ["변환 완료: " +:+ pretty (PIL.width img) +:+ "x"
            +:+ pretty (PIL.height img) +:+ " → " +:+ "out.raw"
            +:+ " (" +:+ pretty (length out) +:+ " bytes)"].
Proof.
  apply (convert_reports_length "in.img" "out.raw" None None
           (started [] two_pixels)).
  vm_compute. reflexivity.
Defined.

(** X7 with width -1 and height 3. *)
Lemma negative_size_reaches_resize_witness :
  convert "in.img" "out.raw" (Some (-1)%Z) (Some 3%Z) (started [] red_2x2)
  = (Raise ValueError,
     with_calls (calls (started [] red_2x2)
                   ++ [CallImageOpen "in.img"; CallResize (-1) 3])
       (started [] red_2x2)).
Proof.
  apply (negative_size_reaches_resize "in.img" "out.raw" (-1)%Z 3%Z
           (started [] red_2x2) red_2x2
           {| PIL.size := (2, 2);
              PIL.load := Tiny.pixel_at 2
                [xff; x00; x00; xff; x00; x00; xff; x00; x00; xff; x00; x00] |}).
  - reflexivity.
  - reflexivity.
  - lia.
  - lia.
  - left. lia.
Defined.

(** X8: a third argument that is no number is not parsed, and a sixth
    argument is ignored. *)
Lemma script_dispatch_witness :
  raw_convert_py (started ["raw_convert.py"; "in.img"; "out.raw"; "wide"] red_2x2)
  = convert "in.img" "out.raw" None None
      (started ["raw_convert.py"; "in.img"; "out.raw"; "wide"] red_2x2) ∧
  raw_convert_py
    (started ["raw_convert.py"; "in.img"; "out.raw"; "4"; "3"; "more"] red_2x2)
  = convert "in.img" "out.raw" (Some 4%Z) (Some 3%Z)
      (started ["raw_convert.py"; "in.img"; "out.raw"; "4"; "3"; "more"] red_2x2).
Proof.
  split.
  - apply (proj1 (script_dispatch
                    (started ["raw_convert.py"; "in.img"; "out.raw"; "wide"] red_2x2)
                    eq_refl)
             "raw_convert.py" "in.img" "out.raw" ["wide"]).
    + reflexivity.
    + simpl. lia.
  - apply (proj2 (script_dispatch
                    (started ["raw_convert.py"; "in.img"; "out.raw"; "4"; "3"; "more"]
                       red_2x2)
                    eq_refl)
             "raw_convert.py" "in.img" "out.raw" "4" "3" ["more"]).
    + reflexivity.
    + vm_compute. reflexivity.
    + vm_compute. reflexivity.
Defined.

(** X12: the same 2x1 file converted to two different paths. *)
Lemma convert_lossless_witness :
  ∃ data1 src1 img1 data2 src2 img2,
    files (started [] two_pixels) !! "in.img" = Some data1 ∧
    PIL.open_RGB data1 = Some src1 ∧
    target src1 None None = Some img1 ∧
    files (started ["x"] two_pixels) !! "in.img" = Some data2 ∧
    PIL.open_RGB data2 = Some src2 ∧
    target src2 None None = Some img2 ∧
    (PIL.size img1 = PIL.size img2 →
     ∀ x y, x < PIL.width img1 → y < PIL.height img1 →
            PIL.load img1 x y = PIL.load img2 x y).
Proof.
  apply (convert_lossless
           "in.img" "a.raw" None None (started [] two_pixels)
           (snd (convert "in.img" "a.raw" None None (started [] two_pixels)))
           "in.img" "b.raw" None None (started ["x"] two_pixels)
           (snd (convert "in.img" "b.raw" None None (started ["x"] two_pixels))));
    vm_compute; reflexivity.
Defined.

(** C4 on a run that resizes the 2x1 file to 1x3. *)
Lemma resize_iff_four_arguments_witness :
  ∃ new,
    calls (snd (python3 (started ["raw_convert.py"; "in.img"; "out.raw"; "1"; "3"]
                           two_pixels)))
    = calls (started ["raw_convert.py"; "in.img"; "out.raw"; "1"; "3"] two_pixels)
      ++ new ∧
    ((∃ w h, CallResize w h ∈ new) ↔
     4 < length (sys_argv (started ["raw_convert.py"; "in.img"; "out.raw"; "1"; "3"]
                             two_pixels))) ∧
    (∀ w h, CallResize w h ∈ new ↔
       ∃ ws hs,
         sys_argv (started ["raw_convert.py"; "in.img"; "out.raw"; "1"; "3"]
                     two_pixels) !! 3 = Some ws ∧
         sys_argv (started ["raw_convert.py"; "in.img"; "out.raw"; "1"; "3"]
                     two_pixels) !! 4 = Some hs ∧
         Builtins.int ws = Some w ∧ Builtins.int hs = Some h) ∧
    (length (sys_argv (started ["raw_convert.py"; "in.img"; "out.raw"; "1"; "3"]
                         two_pixels)) ≤ 4 →
     writable (started ["raw_convert.py"; "in.img"; "out.raw"; "1"; "3"] two_pixels)
       "out.raw" = true →
     fst (python3 (started ["raw_convert.py"; "in.img"; "out.raw"; "1"; "3"]
                     two_pixels)) = 0%Z ∧
     files (snd (python3 (started ["raw_convert.py"; "in.img"; "out.raw"; "1"; "3"]
                            two_pixels))) !! "out.raw"
     = Some (concat (map xrgb8888
                       (row_major {| PIL.size := (2, 1);
                                     PIL.load := Tiny.pixel_at 2
                                       [x01; x02; x03; x04; x05; x06] |}))) ∧
     length (concat (map xrgb8888
                       (row_major {| PIL.size := (2, 1);
                                     PIL.load := Tiny.pixel_at 2
                                       [x01; x02; x03; x04; x05; x06] |})))
     = 2 * 1 * 4) ∧
    (∀ w h img,
       CallResize w h ∈ new →
       PIL.resize {| PIL.size := (2, 1);
                     PIL.load := Tiny.pixel_at 2 [x01; x02; x03; x04; x05; x06] |}
         w h = Some img →
       writable (started ["raw_convert.py"; "in.img"; "out.raw"; "1"; "3"] two_pixels)
         "out.raw" = true →
       fst (python3 (started ["raw_convert.py"; "in.img"; "out.raw"; "1"; "3"]
                       two_pixels)) = 0%Z ∧
       files (snd (python3 (started ["raw_convert.py"; "in.img"; "out.raw"; "1"; "3"]
                              two_pixels))) !! "out.raw"
       = Some (concat (map xrgb8888 (row_major img))) ∧
       PIL.size img = (Z.to_nat w, Z.to_nat h) ∧
       length (concat (map xrgb8888 (row_major img)))
       = Z.to_nat w * Z.to_nat h * 4).
Proof.
  apply (resize_iff_four_arguments
           (started ["raw_convert.py"; "in.img"; "out.raw"; "1"; "3"] two_pixels)
           "raw_convert.py" "in.img" "out.raw" ["1"; "3"] two_pixels
           {| PIL.size := (2, 1);
              PIL.load := Tiny.pixel_at 2 [x01; x02; x03; x04; x05; x06] |}).
  - reflexivity.
  - reflexivity.
  - reflexivity.
  - reflexivity.
  - intros ws hs [= <-] [= <-]. exists 1%Z, 3%Z.
    split; [vm_compute; reflexivity|]. split; [vm_compute; reflexivity|]. lia.
Defined.
End FurtherWitnesses.
